(** * xSOL metrics endpoint (api/xsol-metrics.py)

    A shallow embedding of the serverless handler that reports the xSOL
    metrics: the primary fetch from the Hylo stats API, the blockchain
    fallback, the retry policy of [fetch_with_retry] and the response
    that [do_GET] writes.

    Conventions of the model.
    - Python objects that flow through the handler are JSON-shaped, so
      they are values of the type [value]; a dict is an association list
      in insertion order.
    - A Python float is an exact rational kept in lowest terms (every
      float operation ends in [Qred]); rounding, overflow, infinities
      and NaN are outside the model.
    - The network, the random generator and the clock are oracles; every
      outbound request and every [time.sleep] is appended to a trace.
    - An exception is a value; a computation returns either a result or
      the exception it raised, together with the state it reached. *)

From Stdlib Require Import ZArith QArith Qreduction List String Ascii Bool Lia.
Import ListNotations.
Local Open Scope string_scope.
Local Open Scope Z_scope.

(** ** Python values *)

#[local] Set Warnings "-register-all".

Inductive value : Type :=
| VNone
| VBool (b : bool)
| VInt (n : Z)
| VFloat (q : Q)
| VStr (s : string)
| VList (l : list value)
| VDict (d : list (string * value)).

(** [type(v).__name__] *)
Definition type_name (v : value) : string :=
  match v with
  | VNone => "NoneType"
  | VBool _ => "bool"
  | VInt _ => "int"
  | VFloat _ => "float"
  | VStr _ => "str"
  | VList _ => "list"
  | VDict _ => "dict"
  end.

(** [bool(v)]: the test behind [not v] and [v or w]. *)
Definition truthy (v : value) : bool :=
  match v with
  | VNone => false
  | VBool b => b
  | VInt n => negb (n =? 0)
  | VFloat q => negb (Qnum q =? 0)
  | VStr s => negb (String.length s =? 0)%nat
  | VList l => negb (List.length l =? 0)%nat
  | VDict d => negb (List.length d =? 0)%nat
  end.

(** ** Exceptions *)

(** [urllib.error.HTTPError] is the only class the handler tells apart
    from the rest, by its status [code]; every other subclass of
    [Exception] is kept with its class name. In both, [msg] is the text
    that [str(e)] gives. *)
Inductive exn : Type :=
| HTTPError (code : Z) (msg : string)
| PyExc (cls : string) (msg : string).

Definition str_exn (e : exn) : string :=
  match e with
  | HTTPError _ msg => msg
  | PyExc _ msg => msg
  end.

Inductive result (A : Type) : Type :=
| Ok (a : A)
| Raise (e : exn).
Arguments Ok {A} a.
Arguments Raise {A} e.

Definition quoted (s : string) : string := "'" ++ s ++ "'".
Definition dquote : string := String (ascii_of_nat 34) EmptyString.

Definition TypeError {A} (msg : string) : result A := Raise (PyExc "TypeError" msg).
Definition KeyError {A} (key : string) : result A :=
  Raise (PyExc "KeyError" (quoted key)).
Definition AttributeError {A} (msg : string) : result A :=
  Raise (PyExc "AttributeError" msg).
Definition ValueError {A} (msg : string) : result A := Raise (PyExc "ValueError" msg).
Definition ZeroDivisionError {A} (msg : string) : result A :=
  Raise (PyExc "ZeroDivisionError" msg).

(** ** Float arithmetic on reduced rationals *)

Definition fadd (a b : Q) : Q := Qred (a + b).
Definition fsub (a b : Q) : Q := Qred (a - b).
Definition fmul (a b : Q) : Q := Qred (a * b).
Definition fdiv (a b : Q) : Q := Qred (a / b).
Definition float_of_int (n : Z) : Q := inject_Z n.

(** ** Operators of the Python data model, on JSON-shaped values *)

(** [int] and [bool] operands, which behave as integers. *)
Definition as_int (v : value) : option Z :=
  match v with
  | VInt n => Some n
  | VBool b => Some (if b then 1 else 0)
  | _ => None
  end.

(** Real-number operands: integers and floats. *)
Definition as_float (v : value) : option Q :=
  match v with
  | VFloat q => Some q
  | _ => option_map float_of_int (as_int v)
  end.

Definition is_seq (v : value) : bool :=
  match v with
  | VStr _ | VList _ => true
  | _ => false
  end.

Definition unsupported (op : string) (a b : value) : string :=
  "unsupported operand type(s) for " ++ op ++ ": "
    ++ quoted (type_name a) ++ " and " ++ quoted (type_name b).

Fixpoint str_repeat (n : nat) (s : string) : string :=
  match n with
  | O => ""
  | S k => s ++ str_repeat k s
  end.

Fixpoint list_repeat {A} (n : nat) (l : list A) : list A :=
  match n with
  | O => []
  | S k => l ++ list_repeat k l
  end.

(** [a + b] *)
Definition py_add (a b : value) : result value :=
  match as_int a, as_int b with
  | Some x, Some y => Ok (VInt (x + y))
  | _, _ =>
    match as_float a, as_float b with
    | Some x, Some y => Ok (VFloat (fadd x y))
    | _, _ =>
      match a, b with
      | VStr s, VStr t => Ok (VStr (s ++ t))
      | VList l, VList m => Ok (VList (l ++ m))
      | VStr _, _ | VList _, _ =>
        TypeError ("can only concatenate " ++ type_name a ++ " (not "
                   ++ dquote ++ type_name b ++ dquote ++ ") to " ++ type_name a)
      | _, _ => TypeError (unsupported "+" a b)
      end
    end
  end.

(** [seq * n]: a sequence repeated; a count below one gives the empty
    sequence. *)
Definition seq_repeat (v : value) (n : Z) : value :=
  match v with
  | VStr s => VStr (str_repeat (Z.to_nat n) s)
  | VList l => VList (list_repeat (Z.to_nat n) l)
  | _ => v
  end.

(** [a * b] *)
Definition py_mul (a b : value) : result value :=
  match as_int a, as_int b with
  | Some x, Some y => Ok (VInt (x * y))
  | _, _ =>
    match as_float a, as_float b with
    | Some x, Some y => Ok (VFloat (fmul x y))
    | _, _ =>
      if is_seq a then
        match as_int b with
        | Some n => Ok (seq_repeat a n)
        | None =>
          TypeError ("can't multiply sequence by non-int of type " ++ quoted (type_name b))
        end
      else if is_seq b then
        match as_int a with
        | Some n => Ok (seq_repeat b n)
        | None =>
          TypeError ("can't multiply sequence by non-int of type " ++ quoted (type_name a))
        end
      else TypeError (unsupported "*" a b)
    end
  end.

(** [a / b]: true division, always a float. *)
Definition py_truediv (a b : value) : result value :=
  match as_float a, as_float b with
  | Some x, Some y =>
    if Qnum y =? 0 then
      ZeroDivisionError
        (match as_int a, as_int b with
         | Some _, Some _ => "division by zero"
         | _, _ => "float division by zero"
         end)
    else Ok (VFloat (fdiv x y))
  | _, _ => TypeError (unsupported "/" a b)
  end.

Fixpoint assoc (key : string) (d : list (string * value)) : option value :=
  match d with
  | [] => None
  | (k, v) :: rest => if String.eqb k key then Some v else assoc key rest
  end.

(** [v[key]] with a string key. *)
Definition py_getitem (v : value) (key : string) : result value :=
  match v with
  | VDict d =>
    match assoc key d with
    | Some x => Ok x
    | None => KeyError key
    end
  | VList _ => TypeError "list indices must be integers or slices, not str"
  | VStr _ => TypeError "string indices must be integers, not 'str'"
  | _ => TypeError (quoted (type_name v) ++ " object is not subscriptable")
  end.

(** [v.get(key, default)]: only a dict has the method. *)
Definition py_get (v : value) (key : string) (default : value) : result value :=
  match v with
  | VDict d =>
    match assoc key d with
    | Some x => Ok x
    | None => Ok default
    end
  | _ => AttributeError (quoted (type_name v) ++ " object has no attribute 'get'")
  end.

(** [float(v)]. Parsing a string is left to [float_of_str], Python's own
    reader of float literals. *)
Definition py_float (float_of_str : string -> option Q) (v : value) : result value :=
  match v with
  | VStr s =>
    match float_of_str s with
    | Some q => Ok (VFloat q)
    | None => ValueError ("could not convert string to float: " ++ quoted s)
    end
  | _ =>
    match as_float v with
    | Some q => Ok (VFloat q)
    | None =>
      TypeError ("float() argument must be a string or a real number, not "
                 ++ quoted (type_name v))
    end
  end.

(** ** The world outside the handler *)

(** What [urllib.request.Request] is built from, and the timeout given
    to [urlopen]. A request with [data] is a POST. *)
Record request : Type := {
  url : string;
  headers : list (string * string);
  data : option value;
  timeout : Z
}.

(** One [with urlopen(...) as response: json.loads(response.read().decode())]:
    either the decoded document, or the exception raised on the way. *)
Inductive outcome : Type :=
| Responds (doc : value)
| Fails (e : exn).

Inductive event : Type :=
| Request (r : request)
| Sleep (seconds : Q).

(** [calls] counts the outbound requests made so far, [draws] the calls
    to the random generator; [trace] lists requests and sleeps, oldest
    first. *)
Record world : Type := {
  calls : nat;
  draws : nat;
  trace : list event
}.

Definition world0 : world := {| calls := 0; draws := 0; trace := [] |}.

(** The three ways the handler acts on the world. *)
Definition requested (r : request) (w : world) : world :=
  {| calls := S (calls w); draws := draws w; trace := trace w ++ [Request r] |}.

Definition slept (seconds : Q) (w : world) : world :=
  {| calls := calls w; draws := draws w; trace := trace w ++ [Sleep seconds] |}.

Definition drawn (w : world) : world :=
  {| calls := calls w; draws := S (draws w); trace := trace w |}.

(** ** Computations: state passing with exceptions *)

Definition M (A : Type) : Type := world -> result A * world.

Definition ret {A} (a : A) : M A := fun w => (Ok a, w).
Definition raise {A} (e : exn) : M A := fun w => (Raise e, w).
Definition lift {A} (r : result A) : M A := fun w => (r, w).

Definition bind {A B} (m : M A) (k : A -> M B) : M B :=
  fun w =>
    match m w with
    | (Ok a, w') => k a w'
    | (Raise e, w') => (Raise e, w')
    end.

(** [try: m  except Exception as e: h e] *)
Definition try_except {A} (m : M A) (h : exn -> M A) : M A :=
  fun w =>
    match m w with
    | (Ok a, w') => (Ok a, w')
    | (Raise e, w') => h e w'
    end.

Notation "x <- m ;; k" := (bind m (fun x => k))
  (at level 61, m at next level, right associativity).
Notation "m ;;; k" := (bind m (fun _ => k))
  (at level 61, right associativity).

(** [range(n)] *)
Definition range (n : Z) : list Z := map Z.of_nat (seq 0 (Z.to_nat n)).

(** ** Constants of the module *)

Definition HYLO_API : string := "https://api.hylo.so/stats".
Definition JUPITER_PRICE_API : string := "https://lite-api.jup.ag/price/v3".
Definition SOL_MINT : string := "So11111111111111111111111111111111111111112".
Definition USDC_MINT : string := "EPjFWdd5AufqSSqeM2qN1xzybapC8G4wEGGkZwyTDt1v".
Definition XSOL_MINT : string := "4sWNB8zGWHkh6UnmwiEtzNxL4XrN7uK9tosbESbJFfVs".

Definition SOLANA_RPC_ENDPOINTS : list string :=
  [ "https://api.mainnet-beta.solana.com";
    "https://rpc.ankr.com/solana" ].

(** ** Requests the handler sends *)

(** [headers or {}] *)
Definition headers_or_empty (h : option (list (string * string))) : list (string * string) :=
  match h with
  | Some l => l
  | None => []
  end.

(** The request that [fetch_with_retry] sends on every attempt. *)
Definition retry_request (u : string) (h : option (list (string * string))) : request :=
  {| url := u; headers := headers_or_empty h; data := None; timeout := 15 |}.

Definition price_url (mint : string) : string :=
  JUPITER_PRICE_API ++ "?ids=" ++ mint ++ "&vsToken=" ++ USDC_MINT.

Definition supply_payload (mint_address : string) : value :=
  VDict [ ("jsonrpc", VStr "2.0");
          ("id", VInt 1);
          ("method", VStr "getTokenSupply");
          ("params", VList [VStr mint_address]) ].

Definition supply_request (rpc mint_address : string) : request :=
  {| url := rpc;
     headers := [("Content-Type", "application/json")];
     data := Some (supply_payload mint_address);
     timeout := 10 |}.

Definition hylo_headers : list (string * string) :=
  [ ("User-Agent",
     "Mozilla/5.0 (Windows NT 10.0; Win64; x64) AppleWebKit/537.36 (KHTML, like Gecko) Chrome/131.0.0.0 Safari/537.36");
    ("Accept", "application/json");
    ("Accept-Language", "en-US,en;q=0.9") ].

Definition fallback_note : string :=
  "CollateralRatio unavailable - using blockchain approximation".

(** ** Scripted networks

    A network that answers the [n]-th request with the [n]-th entry of a
    script, whatever the request, and times out once the script is
    used up. *)

Definition timed_out : outcome :=
  Fails (PyExc "URLError" "<urlopen error timed out>").

Definition scripted (script : list outcome) : nat -> request -> outcome :=
  fun n _ => nth n script timed_out.

Definition rate_limited : outcome :=
  Fails (HTTPError 429 "HTTP Error 429: Too Many Requests").

Definition unavailable : outcome :=
  Fails (HTTPError 503 "HTTP Error 503: Service Unavailable").

(** The documents of the three upstream services. *)
Definition stats_doc (stable nav supply ratio : value) : value :=
  VDict [ ("exchangeStats",
           VDict [ ("stablecoinSupply", stable);
                   ("levercoinNav", nav);
                   ("levercoinSupply", supply);
                   ("collateralRatio", ratio) ]) ].

Definition price_doc (mint : string) (usd : value) : value :=
  VDict [ (mint, VDict [ ("usdPrice", usd) ]) ].

Definition supply_doc (amount : value) : value :=
  VDict [ ("result", VDict [ ("value", VDict [ ("uiAmount", amount) ]) ]) ].

(** A generator that always draws one half, a fixed clock, and a float
    reader that accepts no string. *)
Definition half : nat -> Q := fun _ => 1 # 2.
Definition noon : string := "2024-01-01T12:00:00".
Definition no_float : string -> option Q := fun _ => None.

(** The Hylo API answers at once, then the price service. *)
Definition net_primary : nat -> request -> outcome :=
  scripted [ Responds (stats_doc (VInt 18000000) (VFloat (3 # 2)) (VInt 1000000) (VFloat (6 # 5)));
             Responds (price_doc SOL_MINT (VInt 150)) ].

(** The Hylo API times out three times; the first RPC endpoint reports a
    supply of 1000000, and the prices are 150 and 1.5. *)
Definition net_fallback : nat -> request -> outcome :=
  scripted [ timed_out; timed_out; timed_out;
             Responds (supply_doc (VInt 1000000));
             Responds (price_doc SOL_MINT (VInt 150));
             Responds (price_doc XSOL_MINT (VFloat (3 # 2))) ].

(** The Hylo API and both RPC endpoints time out. *)
Definition net_down : nat -> request -> outcome := scripted [].

(** The Hylo API is down; the RPC endpoint reports a supply of zero. *)
Definition net_zero_supply : nat -> request -> outcome :=
  scripted [ unavailable; Responds (supply_doc (VInt 0)) ].

(** The Hylo API is down and the supply is known, but the price service
    has no price for SOL. *)
Definition net_no_price : nat -> request -> outcome :=
  scripted [ unavailable;
             Responds (supply_doc (VInt 1000000));
             Responds (VDict []);
             Responds (price_doc XSOL_MINT (VFloat (3 # 2))) ].

(** The Hylo API answers with a null collateral ratio. *)
Definition net_null_ratio : nat -> request -> outcome :=
  scripted [ Responds (stats_doc (VInt 18000000) (VFloat (3 # 2)) (VInt 1000000) VNone);
             Responds (price_doc SOL_MINT (VInt 150)) ].

(** One rate-limit answer, then a document. *)
Definition net_429_then_ok : nat -> request -> outcome :=
  scripted [ rate_limited; Responds (price_doc SOL_MINT (VInt 150)) ].

(** The states the scenarios pass through: after the one request to the
    Hylo API that is answered 503, and after its three requests that
    time out. *)
Definition hylo_request : request := retry_request HYLO_API (Some hylo_headers).

Definition after_hylo_refused : world := requested hylo_request world0.

Definition after_hylo_timeouts : world :=
  requested hylo_request
    (slept 1 (requested hylo_request (slept 1 (requested hylo_request world0)))).

Definition first_rpc : request :=
  supply_request "https://api.mainnet-beta.solana.com" XSOL_MINT.
Definition second_rpc : request :=
  supply_request "https://rpc.ankr.com/solana" XSOL_MINT.

Section Handler.

(** The answer of the network to the [n]-th outbound request. *)
Variable network : nat -> request -> outcome.
(** The [n]-th value of [random.random()], a float in [0, 1). *)
Variable random : nat -> Q.
(** [datetime.utcnow().isoformat()] at the time the record is built. *)
Variable utcnow_isoformat : string.
(** Python's reader of float literals, used by [float(str)]. *)
Variable float_of_str : string -> option Q.

Definition urlopen_json (r : request) : M value :=
  fun w =>
    match network (calls w) r with
    | Responds doc => (Ok doc, requested r w)
    | Fails e => (Raise e, requested r w)
    end.

(** [time.sleep(seconds)] *)
Definition sleep (seconds : Q) : M unit :=
  fun w => (Ok tt, slept seconds w).

(** [random.uniform(a, b)], that is [a + (b - a) * random()]. *)
Definition random_uniform (a b : Q) : M Q :=
  fun w => (Ok (fadd a (fmul (fsub b a) (random (draws w)))), drawn w).

(** The [for attempt in range(max_retries)] loop of [fetch_with_retry],
    over the attempts still to make. [Some doc] is the [return] inside
    the loop; [None] means the loop ran off its end. *)
Fixpoint retry_loop (u : string) (h : option (list (string * string)))
    (max_retries : Z) (attempts : list Z) : M (option value) :=
  match attempts with
  | [] => ret None
  | attempt :: rest =>
    try_except
      (doc <- urlopen_json (retry_request u h) ;;
       ret (Some doc))
      (fun e =>
         match e with
         | HTTPError code _ =>
           if code =? 429 then
             if attempt <? max_retries - 1 then
               jitter <- random_uniform 0 1 ;;
               sleep (fadd (float_of_int (2 ^ attempt)) jitter) ;;;
               retry_loop u h max_retries rest
             else raise e
           else raise e
         | PyExc _ _ =>
           if attempt <? max_retries - 1 then
             sleep 1 ;;;
             retry_loop u h max_retries rest
           else raise e
         end)
  end.

Definition fetch_with_retry (u : string) (h : option (list (string * string)))
    (max_retries : Z) : M value :=
  r <- retry_loop u h max_retries (range max_retries) ;;
  match r with
  | Some doc => ret doc
  | None => ret VNone
  end.

Definition fetch_sol_price : M value :=
  doc <- fetch_with_retry (price_url SOL_MINT) None 3 ;;
  entry <- lift (py_get doc SOL_MINT (VDict [])) ;;
  lift (py_get entry "usdPrice" (VInt 0)).

Definition fetch_xsol_price : M value :=
  doc <- fetch_with_retry (price_url XSOL_MINT) None 3 ;;
  entry <- lift (py_get doc XSOL_MINT (VDict [])) ;;
  lift (py_get entry "usdPrice" (VInt 0)).

(** The body of the [try] in [fetch_token_supply], for one endpoint. *)
Definition supply_attempt (rpc mint_address : string) : M value :=
  doc <- urlopen_json (supply_request rpc mint_address) ;;
  res <- lift (py_getitem doc "result") ;;
  val <- lift (py_getitem res "value") ;;
  amount <- lift (py_getitem val "uiAmount") ;;
  lift (py_float float_of_str amount).

(** The [for rpc in ...] loop of [fetch_token_supply]: the first endpoint
    whose attempt does not raise decides; [None] when all raised. *)
Fixpoint supply_loop (endpoints : list string) (mint_address : string) : M value :=
  match endpoints with
  | [] => ret VNone
  | rpc :: rest =>
    try_except (supply_attempt rpc mint_address)
               (fun _ => supply_loop rest mint_address)
  end.

Definition fetch_token_supply (mint_address : string) : M value :=
  supply_loop SOLANA_RPC_ENDPOINTS mint_address.

Definition fetch_hylo_api : M value :=
  fetch_with_retry HYLO_API (Some hylo_headers) 3.

(** The dict that [fetch_blockchain_fallback] returns. *)
Definition fallback_metrics (HYusd_supply xSOL_price xSOL_supply CollateralRatio
    SOL_price Collateral_TVL Collateral_TVL_SOL Effective_Leverage : value) : value :=
  VDict
    [ ("HYusd_supply", HYusd_supply);
      ("xSOL_price", xSOL_price);
      ("xSOL_supply", xSOL_supply);
      ("CollateralRatio", CollateralRatio);
      ("SOL_price", SOL_price);
      ("StabilityMode", VDict []);
      ("Collateral_TVL", Collateral_TVL);
      ("Collateral_TVL_SOL", Collateral_TVL_SOL);
      ("Effective_Leverage", Effective_Leverage);
      ("xSOL_icon_url", VNone);
      ("lastFetched", VStr (utcnow_isoformat ++ "Z"));
      ("source", VStr "blockchain-fallback");
      ("note", VStr fallback_note) ].

Definition fetch_blockchain_fallback : M value :=
  xSOL_supply <- fetch_token_supply XSOL_MINT ;;
  if negb (truthy xSOL_supply) then
    raise (PyExc "Exception" "Failed to fetch xSOL supply from blockchain")
  else
    SOL_price <- fetch_sol_price ;;
    xSOL_price <- fetch_xsol_price ;;
    if negb (truthy SOL_price) || negb (truthy xSOL_price) then
      raise (PyExc "Exception" "Failed to fetch prices from Jupiter")
    else
      let HYusd_supply := VInt 18000000 in
      let CollateralRatio := VNone in
      lever_value <- lift (py_mul xSOL_price xSOL_supply) ;;
      Collateral_TVL <- lift (py_add HYusd_supply lever_value) ;;
      Collateral_TVL_SOL <- lift (py_truediv Collateral_TVL SOL_price) ;;
      lever_value' <- lift (py_mul xSOL_price xSOL_supply) ;;
      Effective_Leverage <- lift (py_truediv Collateral_TVL lever_value') ;;
      ret (fallback_metrics HYusd_supply xSOL_price xSOL_supply CollateralRatio
             SOL_price Collateral_TVL Collateral_TVL_SOL Effective_Leverage).

(** The dict that [do_GET] builds on the Hylo API path. *)
Definition hylo_metrics (HYusd_supply xSOL_price xSOL_supply CollateralRatio
    SOL_price StabilityMode Collateral_TVL Collateral_TVL_SOL Effective_Leverage : value) : value :=
  VDict
    [ ("HYusd_supply", HYusd_supply);
      ("xSOL_price", xSOL_price);
      ("xSOL_supply", xSOL_supply);
      ("CollateralRatio", CollateralRatio);
      ("SOL_price", SOL_price);
      ("StabilityMode", StabilityMode);
      ("Collateral_TVL", Collateral_TVL);
      ("Collateral_TVL_SOL", Collateral_TVL_SOL);
      ("Effective_Leverage", Effective_Leverage);
      ("xSOL_icon_url", VNone);
      ("lastFetched", VStr (utcnow_isoformat ++ "Z"));
      ("source", VStr "hylo-api") ].

(** The body of the inner [try] of [do_GET]: the Hylo API path. *)
Definition hylo_primary : M value :=
  hylo_data <- fetch_hylo_api ;;
  stats <- lift (py_getitem hylo_data "exchangeStats") ;;
  HYusd_supply <- lift (py_getitem stats "stablecoinSupply") ;;
  xSOL_price <- lift (py_getitem stats "levercoinNav") ;;
  xSOL_supply <- lift (py_getitem stats "levercoinSupply") ;;
  CollateralRatio <- lift (py_getitem stats "collateralRatio") ;;
  StabilityMode <- lift (py_get stats "stabilityMode" (VDict [])) ;;
  SOL_price <- fetch_sol_price ;;
  lever_value <- lift (py_mul xSOL_price xSOL_supply) ;;
  Collateral_TVL <- lift (py_add HYusd_supply lever_value) ;;
  Collateral_TVL_SOL <- lift (py_truediv Collateral_TVL SOL_price) ;;
  lever_value' <- lift (py_mul xSOL_price xSOL_supply) ;;
  Effective_Leverage <- lift (py_truediv Collateral_TVL lever_value') ;;
  ret (hylo_metrics HYusd_supply xSOL_price xSOL_supply CollateralRatio
         SOL_price StabilityMode Collateral_TVL Collateral_TVL_SOL Effective_Leverage).

(** What the handler sends: status line, headers in the order sent, and
    the JSON document that [json.dumps] serialises into the body. *)
Record response : Type := {
  status : Z;
  sent_headers : list (string * string);
  body : value
}.

Definition ok_response (metrics : value) : response :=
  {| status := 200;
     sent_headers := [ ("Content-type", "application/json");
                       ("Access-Control-Allow-Origin", "*");
                       ("Cache-Control", "public, max-age=60") ];
     body := metrics |}.

Definition error_response (e : exn) : response :=
  {| status := 500;
     sent_headers := [ ("Content-type", "application/json");
                       ("Access-Control-Allow-Origin", "*") ];
     body := VDict [ ("error", VStr (str_exn e));
                     ("message", VStr "Failed to fetch xSOL metrics");
                     ("suggestion", VStr "Try again later or use cached Gist data") ] |}.

(** The metrics of a request: the Hylo path, and the blockchain path
    when the Hylo path raised. *)
Definition get_metrics : M value :=
  try_except hylo_primary (fun _ => fetch_blockchain_fallback).

(** [do_GET]: with the metrics in hand the handler sends the 200
    response; an exception that leaves the outer [try] is answered with
    the 500 response. *)
Definition do_GET : world -> response * world :=
  fun w =>
    match get_metrics w with
    | (Ok metrics, w') => (ok_response metrics, w')
    | (Raise e, w') => (error_response e, w')
    end.

(** ** Specification vocabulary *)

Local Open Scope list_scope.

(** An event that is not a request to the address [u]. *)
Definition avoids (u : string) (ev : event) : Prop :=
  match ev with
  | Request r => url r <> u
  | Sleep _ => True
  end.

(** [w'] continues [w] with events that all satisfy [P]. *)
Definition extends (P : event -> Prop) (w w' : world) : Prop :=
  exists evs, trace w' = trace w ++ evs /\ Forall P evs.

(** Whatever [m] does and however it ends, it only adds events that
    satisfy [P]. *)
Definition emits {A} (P : event -> Prop) (m : M A) : Prop :=
  forall w r w', m w = (r, w') -> extends P w w'.

(** Every endpoint of the list is tried and raises, from [w] to [w']. *)
Inductive all_endpoints_fail (mint_address : string) :
    list string -> world -> world -> Prop :=
| aef_nil w : all_endpoints_fail mint_address [] w w
| aef_cons rpc rest w e w1 w2 :
    supply_attempt rpc mint_address w = (Raise e, w1) ->
    all_endpoints_fail mint_address rest w1 w2 ->
    all_endpoints_fail mint_address (rpc :: rest) w w2.

(** With the supply known, a price lookup comes back falsy: the SOL price
    is falsy and the xSOL lookup ends with [r], or the xSOL lookup
    returns a falsy price. *)
Definition falsy_price (w1 w2 : world) (r : result value) : Prop :=
  exists supply wa sol wb,
    fetch_token_supply XSOL_MINT w1 = (Ok supply, wa)
    /\ truthy supply = true
    /\ fetch_sol_price wa = (Ok sol, wb)
    /\ fetch_xsol_price wb = (r, w2)
    /\ (truthy sol = false \/ exists price, r = Ok price /\ truthy price = false).

(** The two paths of the handler. *)
Inductive path : Type := Primary | Fallback.

Definition metrics_of (p : path) : M value :=
  match p with
  | Primary => hylo_primary
  | Fallback => fetch_blockchain_fallback
  end.

(** The result [r] of a call that went from [w] to [w'] is the answer to
    the last request made. *)
Definition answers_last (u : string) (h : option (list (string * string)))
    (w w' : world) (r : result (option value)) : Prop :=
  match r with
  | Ok None => True
  | Ok (Some doc) =>
    (calls w < calls w')%nat
    /\ network (pred (calls w')) (retry_request u h) = Responds doc
  | Raise e =>
    (calls w < calls w')%nat
    /\ network (pred (calls w')) (retry_request u h) = Fails e
  end.

(** What a successful run of either path went through: the three
    derived figures, as both paths compute them, and the steps of each
    path. *)
Inductive derived (stable price supply sol tvl tvl_sol leverage : value) : Prop :=
| Derived lever_value :
    py_mul price supply = Ok lever_value ->
    py_add stable lever_value = Ok tvl ->
    py_truediv tvl sol = Ok tvl_sol ->
    py_truediv tvl lever_value = Ok leverage ->
    derived stable price supply sol tvl tvl_sol leverage.

Inductive primary_run (w w' : world) (metrics : value) : Prop :=
| Primary_run doc w1 stats stable price supply ratio mode sol tvl tvl_sol leverage :
    fetch_hylo_api w = (Ok doc, w1) ->
    py_getitem doc "exchangeStats" = Ok stats ->
    py_getitem stats "stablecoinSupply" = Ok stable ->
    py_getitem stats "levercoinNav" = Ok price ->
    py_getitem stats "levercoinSupply" = Ok supply ->
    py_getitem stats "collateralRatio" = Ok ratio ->
    py_get stats "stabilityMode" (VDict []) = Ok mode ->
    fetch_sol_price w1 = (Ok sol, w') ->
    derived stable price supply sol tvl tvl_sol leverage ->
    metrics = hylo_metrics stable price supply ratio sol mode tvl tvl_sol leverage ->
    primary_run w w' metrics.

Inductive fallback_run (w w' : world) (metrics : value) : Prop :=
| Fallback_run supply w1 sol w2 price tvl tvl_sol leverage :
    fetch_token_supply XSOL_MINT w = (Ok supply, w1) ->
    truthy supply = true ->
    fetch_sol_price w1 = (Ok sol, w2) ->
    fetch_xsol_price w2 = (Ok price, w') ->
    truthy sol = true ->
    truthy price = true ->
    derived (VInt 18000000) price supply sol tvl tvl_sol leverage ->
    metrics = fallback_metrics (VInt 18000000) price supply VNone sol tvl tvl_sol leverage ->
    fallback_run w w' metrics.

(** The two exceptions that [fetch_blockchain_fallback] raises itself. *)
Definition supply_failure : exn :=
  PyExc "Exception" "Failed to fetch xSOL supply from blockchain".
Definition price_failure : exn :=
  PyExc "Exception" "Failed to fetch prices from Jupiter".

(** The retry policy as the specification words it: a failed attempt
    that may still be retried and whose failure is not a 429 answer is
    followed by a sleep of one second and the next attempt. *)
Definition retried_unless_429 : Prop :=
  forall u h attempt rest w e,
    network (calls w) (retry_request u h) = Fails e ->
    (forall msg, e <> HTTPError 429 msg) ->
    attempt < 3 - 1 ->
    retry_loop u h 3 (attempt :: rest) w
    = retry_loop u h 3 rest (slept 1 (requested (retry_request u h) w)).

(** As the specification words it: the record of the Hylo path always
    has a collateral ratio that is not null. *)
Definition ratio_non_null_on_primary : Prop :=
  forall w metrics w',
    hylo_primary w = (Ok metrics, w') ->
    exists ratio, py_getitem metrics "CollateralRatio" = Ok ratio /\ ratio <> VNone.

(** As the specification words it: [fetch_with_retry] never returns
    [None], and its loop never runs off its end, whatever the
    arguments. *)
Definition never_returns_None : Prop :=
  forall u h max_retries w w',
    fetch_with_retry u h max_retries w <> (Ok VNone, w').

Definition loop_end_unreachable : Prop :=
  forall u h max_retries w w',
    retry_loop u h max_retries (range max_retries) w <> (Ok None, w').

(** ** The operators, by example *)

Example add_int_float :
  py_add (VInt 18000000) (VFloat 1500000) = Ok (VFloat 19500000).
Proof. reflexivity. Qed.

Example mul_float_int :
  py_mul (VFloat (3 # 2)) (VInt 1000000) = Ok (VFloat 1500000).
Proof. reflexivity. Qed.

Example mul_str_int : py_mul (VStr "ab") (VInt 2) = Ok (VStr "abab").
Proof. reflexivity. Qed.

Example mul_str_float :
  py_mul (VStr "1.5") (VFloat 1000000)
  = TypeError "can't multiply sequence by non-int of type 'float'".
Proof. reflexivity. Qed.

Example truediv_ints : py_truediv (VInt 19500000) (VInt 150) = Ok (VFloat 130000).
Proof. reflexivity. Qed.

Example truediv_by_zero :
  py_truediv (VFloat 19500000) (VInt 0) = ZeroDivisionError "float division by zero".
Proof. reflexivity. Qed.

Example truediv_str :
  py_truediv (VStr "abab") (VInt 150)
  = TypeError "unsupported operand type(s) for /: 'str' and 'int'".
Proof. reflexivity. Qed.

Example get_on_list :
  py_get (VList []) "usdPrice" (VInt 0)
  = AttributeError "'list' object has no attribute 'get'".
Proof. reflexivity. Qed.

Example zero_is_falsy : truthy (VFloat 0) = false /\ truthy (VInt 0) = false.
Proof. split; reflexivity. Qed.

(** ** The monad *)

Lemma bind_Ok {A B} (m : M A) (k : A -> M B) w b w' :
  bind m k w = (Ok b, w') ->
  exists a w1, m w = (Ok a, w1) /\ k a w1 = (Ok b, w').
Proof.
  unfold bind. destruct (m w) as [[a | e] w1]; intros H.
  - exists a, w1. split; [reflexivity | exact H].
  - discriminate H.
Qed.

Lemma bind_Raise {A B} (m : M A) (k : A -> M B) w e w' :
  bind m k w = (Raise e, w') ->
  m w = (Raise e, w') \/ exists a w1, m w = (Ok a, w1) /\ k a w1 = (Raise e, w').
Proof.
  unfold bind. destruct (m w) as [[a | e1] w1]; intros H.
  - right. exists a, w1. split; [reflexivity | exact H].
  - left. inversion H; subst. reflexivity.
Qed.

Lemma bind_run_Ok {A B} (m : M A) (k : A -> M B) w a w1 :
  m w = (Ok a, w1) -> bind m k w = k a w1.
Proof. unfold bind. intros ->. reflexivity. Qed.

Lemma bind_run_Raise {A B} (m : M A) (k : A -> M B) w e w1 :
  m w = (Raise e, w1) -> bind m k w = (Raise e, w1).
Proof. unfold bind. intros ->. reflexivity. Qed.

Lemma lift_Ok {A} (r : result A) w a w' :
  lift r w = (Ok a, w') -> r = Ok a /\ w' = w.
Proof. unfold lift. intros H. inversion H. split; reflexivity. Qed.

Lemma ret_Ok {A} (x : A) w a w' :
  ret x w = (Ok a, w') -> a = x /\ w' = w.
Proof. unfold ret. intros H. inversion H. split; reflexivity. Qed.

Ltac inv_run :=
  repeat match goal with
  | H : bind _ _ _ = (Ok _, _) |- _ =>
    apply bind_Ok in H; destruct H as (? & ? & ? & H)
  | H : lift _ _ = (Ok _, _) |- _ =>
    apply lift_Ok in H; destruct H as [H ?]; subst
  | H : ret _ _ = (Ok _, _) |- _ =>
    apply ret_Ok in H; destruct H as [? ?]; subst
  end.

(** ** Traces *)

Lemma extends_refl P w : extends P w w.
Proof. exists []. split; [symmetry; apply app_nil_r | constructor]. Qed.

Lemma extends_trans P w1 w2 w3 :
  extends P w1 w2 -> extends P w2 w3 -> extends P w1 w3.
Proof.
  intros (e1 & H1 & F1) (e2 & H2 & F2). exists (e1 ++ e2). split.
  - rewrite H2, H1. symmetry. apply app_assoc.
  - apply Forall_app. split; assumption.
Qed.

Lemma emits_ret {A} P (a : A) : emits P (ret a).
Proof. intros w r w' H. inversion H. apply extends_refl. Qed.

Lemma emits_raise {A} P e : emits P (@raise A e).
Proof. intros w r w' H. inversion H. apply extends_refl. Qed.

Lemma emits_lift {A} P (x : result A) : emits P (lift x).
Proof. intros w r w' H. inversion H. apply extends_refl. Qed.

Lemma emits_bind {A B} P (m : M A) (k : A -> M B) :
  emits P m -> (forall a, emits P (k a)) -> emits P (bind m k).
Proof.
  intros Hm Hk w r w'. unfold bind.
  destruct (m w) as [[a | e] w1] eqn:E; intros H.
  - eapply extends_trans; [eapply Hm, E | eapply Hk, H].
  - inversion H; subst. eapply Hm, E.
Qed.

Lemma emits_try_except {A} P (m : M A) (h : exn -> M A) :
  emits P m -> (forall e, emits P (h e)) -> emits P (try_except m h).
Proof.
  intros Hm Hh w r w'. unfold try_except.
  destruct (m w) as [[a | e] w1] eqn:E; intros H.
  - inversion H; subst. eapply Hm, E.
  - eapply extends_trans; [eapply Hm, E | eapply Hh, H].
Qed.

Lemma emits_urlopen_json P r : P (Request r) -> emits P (urlopen_json r).
Proof.
  intros HP w res w'. unfold urlopen_json. intros H.
  exists [Request r]. split.
  - destruct (network (calls w) r); inversion H; reflexivity.
  - constructor; [exact HP | constructor].
Qed.

Lemma emits_sleep P q : P (Sleep q) -> emits P (sleep q).
Proof.
  intros HP w res w' H. inversion H. exists [Sleep q]. split.
  - reflexivity.
  - constructor; [exact HP | constructor].
Qed.

Lemma emits_random_uniform P a b : emits P (random_uniform a b).
Proof.
  intros w res w' H. inversion H. exists []. split; simpl.
  - symmetry. apply app_nil_r.
  - constructor.
Qed.

Lemma emits_retry_loop P u h max_retries attempts :
  P (Request (retry_request u h)) -> (forall q, P (Sleep q)) ->
  emits P (retry_loop u h max_retries attempts).
Proof.
  intros HR HS. induction attempts as [| attempt rest IH]; simpl.
  - apply emits_ret.
  - apply emits_try_except.
    + apply emits_bind; [apply emits_urlopen_json, HR | intros; apply emits_ret].
    + intros [code msg | cls msg].
      * destruct (code =? 429); [| apply emits_raise].
        destruct (attempt <? max_retries - 1); [| apply emits_raise].
        apply emits_bind; [apply emits_random_uniform |].
        intros j. apply emits_bind; [apply emits_sleep, HS | intros; exact IH].
      * destruct (attempt <? max_retries - 1); [| apply emits_raise].
        apply emits_bind; [apply emits_sleep, HS | intros; exact IH].
Qed.

Lemma emits_fetch_with_retry P u h max_retries :
  P (Request (retry_request u h)) -> (forall q, P (Sleep q)) ->
  emits P (fetch_with_retry u h max_retries).
Proof.
  intros HR HS. unfold fetch_with_retry. apply emits_bind.
  - apply emits_retry_loop; assumption.
  - intros [doc |]; apply emits_ret.
Qed.

(** ** The retry loop, one attempt at a time *)

Lemma retry_attempt_responds u h max_retries attempt rest w doc :
  network (calls w) (retry_request u h) = Responds doc ->
  retry_loop u h max_retries (attempt :: rest) w
  = (Ok (Some doc), requested (retry_request u h) w).
Proof.
  intros H. simpl. unfold try_except, bind, urlopen_json. rewrite H. reflexivity.
Qed.

Lemma retry_attempt_http_error u h max_retries attempt rest w code msg :
  network (calls w) (retry_request u h) = Fails (HTTPError code msg) ->
  code <> 429 ->
  retry_loop u h max_retries (attempt :: rest) w
  = (Raise (HTTPError code msg), requested (retry_request u h) w).
Proof.
  intros H Hc. simpl. unfold try_except, bind, urlopen_json. rewrite H.
  apply Z.eqb_neq in Hc. rewrite Hc. reflexivity.
Qed.

Lemma retry_attempt_rate_limited u h max_retries attempt rest w msg :
  network (calls w) (retry_request u h) = Fails (HTTPError 429 msg) ->
  retry_loop u h max_retries (attempt :: rest) w
  = if attempt <? max_retries - 1 then
      let w1 := requested (retry_request u h) w in
      let jitter := fadd 0 (fmul (fsub 1 0) (random (draws w1))) in
      retry_loop u h max_retries rest
        (slept (fadd (float_of_int (2 ^ attempt)) jitter) (drawn w1))
    else (Raise (HTTPError 429 msg), requested (retry_request u h) w).
Proof.
  intros H. simpl. unfold try_except, bind, urlopen_json. rewrite H. simpl.
  destruct (attempt <? max_retries - 1); reflexivity.
Qed.

Lemma retry_attempt_other_error u h max_retries attempt rest w cls msg :
  network (calls w) (retry_request u h) = Fails (PyExc cls msg) ->
  retry_loop u h max_retries (attempt :: rest) w
  = if attempt <? max_retries - 1 then
      retry_loop u h max_retries rest (slept 1 (requested (retry_request u h) w))
    else (Raise (PyExc cls msg), requested (retry_request u h) w).
Proof.
  intros H. simpl. unfold try_except, bind, urlopen_json. rewrite H.
  destruct (attempt <? max_retries - 1); reflexivity.
Qed.

(** The loop runs off its end only when every attempt was allowed a
    retry. *)
Lemma retry_loop_None u h max_retries attempts :
  forall w w',
    retry_loop u h max_retries attempts w = (Ok None, w') ->
    Forall (fun attempt => attempt < max_retries - 1) attempts.
Proof.
  induction attempts as [| attempt rest IH]; intros w w' H.
  - constructor.
  - destruct (network (calls w) (retry_request u h)) as [doc | [code msg | cls msg]] eqn:E.
    + rewrite (retry_attempt_responds _ _ _ _ _ _ _ E) in H. discriminate H.
    + destruct (Z.eq_dec code 429) as [-> | Hc].
      * rewrite (retry_attempt_rate_limited _ _ _ _ _ _ _ E) in H.
        destruct (attempt <? max_retries - 1) eqn:L; [| discriminate H].
        constructor; [apply Z.ltb_lt, L | eapply IH, H].
      * rewrite (retry_attempt_http_error _ _ _ _ _ _ _ _ E Hc) in H. discriminate H.
    + rewrite (retry_attempt_other_error _ _ _ _ _ _ _ _ E) in H.
      destruct (attempt <? max_retries - 1) eqn:L; [| discriminate H].
      constructor; [apply Z.ltb_lt, L | eapply IH, H].
Qed.

(** What the loop returns or raises is the answer to the last request
    it made, and it makes at most one request per attempt. *)
Lemma retry_loop_answers_last u h max_retries attempts :
  forall w r w',
    retry_loop u h max_retries attempts w = (r, w') ->
    (calls w <= calls w' <= calls w + List.length attempts)%nat
    /\ answers_last u h w w' r.
Proof.
  induction attempts as [| attempt rest IH]; intros w r w' H.
  - inversion H; subst. simpl. split; [lia | exact I].
  - assert (Step : forall w1,
      calls w1 = S (calls w) ->
      retry_loop u h max_retries rest w1 = (r, w') ->
      (calls w <= calls w' <= calls w + List.length (attempt :: rest))%nat
      /\ answers_last u h w w' r).
    { intros w1 Hc Hr. destruct (IH _ _ _ Hr) as [Hb Ha]. rewrite Hc in Hb.
      split; [simpl; lia |].
      destruct r as [[doc |] | e]; simpl in *; try exact I;
        (split; [lia | apply Ha]). }
    destruct (network (calls w) (retry_request u h)) as [doc | [code msg | cls msg]] eqn:E.
    + rewrite (retry_attempt_responds _ _ _ _ _ _ _ E) in H.
      inversion H; subst. simpl. split; [lia | split; [lia | exact E]].
    + destruct (Z.eq_dec code 429) as [-> | Hc].
      * rewrite (retry_attempt_rate_limited _ _ _ _ _ _ _ E) in H.
        destruct (attempt <? max_retries - 1).
        -- eapply Step; [| exact H]. reflexivity.
        -- inversion H; subst. simpl. split; [lia | split; [lia | exact E]].
      * rewrite (retry_attempt_http_error _ _ _ _ _ _ _ _ E Hc) in H.
        inversion H; subst. simpl. split; [lia | split; [lia | exact E]].
    + rewrite (retry_attempt_other_error _ _ _ _ _ _ _ _ E) in H.
      destruct (attempt <? max_retries - 1).
      * eapply Step; [| exact H]. reflexivity.
      * inversion H; subst. simpl. split; [lia | split; [lia | exact E]].
Qed.

Lemma length_range n : List.length (range n) = Z.to_nat n.
Proof. unfold range. rewrite length_map, length_seq. reflexivity. Qed.

Lemma range_last n : 1 <= n -> In (n - 1) (range n).
Proof.
  intros H. unfold range. apply in_map_iff. exists (Z.to_nat (n - 1)). split.
  - lia.
  - apply in_seq. lia.
Qed.

(** With at least one attempt to make, the loop over [range(max_retries)]
    never runs off its end. *)
Lemma retry_loop_range_not_None u h max_retries w w' :
  1 <= max_retries ->
  retry_loop u h max_retries (range max_retries) w <> (Ok None, w').
Proof.
  intros Hn H. apply retry_loop_None in H.
  rewrite Forall_forall in H. specialize (H _ (range_last _ Hn)). lia.
Qed.

Lemma fetch_with_retry_Ok u h max_retries w doc w' :
  1 <= max_retries ->
  fetch_with_retry u h max_retries w = (Ok doc, w') ->
  retry_loop u h max_retries (range max_retries) w = (Ok (Some doc), w').
Proof.
  intros Hn H. unfold fetch_with_retry in H. apply bind_Ok in H.
  destruct H as ([d |] & w1 & Hl & Hk).
  - apply ret_Ok in Hk. destruct Hk; subst. exact Hl.
  - apply ret_Ok in Hk. destruct Hk; subst.
    exfalso. eapply retry_loop_range_not_None; eassumption.
Qed.

Lemma fetch_with_retry_Raise u h max_retries w e w' :
  fetch_with_retry u h max_retries w = (Raise e, w') ->
  retry_loop u h max_retries (range max_retries) w = (Raise e, w').
Proof.
  intros H. unfold fetch_with_retry in H. apply bind_Raise in H.
  destruct H as [H | ([d |] & w1 & _ & Hk)]; [exact H | discriminate Hk ..].
Qed.

(** When every request of the call fails, the call raises. *)
Lemma fetch_with_retry_all_fail u h max_retries w :
  1 <= max_retries ->
  (forall k, (k < Z.to_nat max_retries)%nat ->
             exists e, network (calls w + k) (retry_request u h) = Fails e) ->
  exists e w', fetch_with_retry u h max_retries w = (Raise e, w').
Proof.
  intros Hn Hfail.
  destruct (retry_loop u h max_retries (range max_retries) w) as [r w'] eqn:E.
  destruct (retry_loop_answers_last _ _ _ _ _ _ _ E) as [Hb Ha].
  rewrite length_range in Hb.
  destruct r as [[doc |] | e].
  - destruct Ha as [Hlt Hnet].
    destruct (Hfail (pred (calls w') - calls w)%nat) as [e He]; [lia |].
    replace (calls w + (pred (calls w') - calls w))%nat with (pred (calls w')) in He by lia.
    rewrite Hnet in He. discriminate He.
  - exfalso. eapply retry_loop_range_not_None; eassumption.
  - exists e, w'. unfold fetch_with_retry. rewrite (bind_run_Raise _ _ _ _ _ E). reflexivity.
Qed.

(** ** The supply query *)

Lemma py_float_is_float v r : py_float float_of_str v = Ok r -> exists q, r = VFloat q.
Proof.
  unfold py_float. intros H.
  destruct v; simpl in H;
    try (destruct (float_of_str s)); inversion H; eexists; reflexivity.
Qed.

Lemma supply_attempt_is_float rpc mint_address w v w' :
  supply_attempt rpc mint_address w = (Ok v, w') -> exists q, v = VFloat q.
Proof.
  unfold supply_attempt. intros H. inv_run.
  eapply py_float_is_float. eassumption.
Qed.

Lemma supply_loop_all_fail mint_address endpoints w w' :
  all_endpoints_fail mint_address endpoints w w' ->
  supply_loop endpoints mint_address w = (Ok VNone, w').
Proof.
  induction 1 as [w | rpc rest w e w1 w2 Hf _ IH]; simpl.
  - reflexivity.
  - unfold try_except. rewrite Hf. exact IH.
Qed.

Lemma supply_loop_first_answer mint_address earlier rpc later w w1 v w2 :
  all_endpoints_fail mint_address earlier w w1 ->
  supply_attempt rpc mint_address w1 = (Ok v, w2) ->
  supply_loop (earlier ++ rpc :: later) mint_address w = (Ok v, w2).
Proof.
  induction 1 as [w | r0 rest w e wa wb Hf _ IH]; intros Hok; simpl.
  - unfold try_except. rewrite Hok. reflexivity.
  - unfold try_except. rewrite Hf. apply IH, Hok.
Qed.

(** [fetch_token_supply] never raises, and it returns [None] exactly
    when every endpoint raised. *)
Lemma supply_loop_result mint_address endpoints :
  forall w r w',
    supply_loop endpoints mint_address w = (r, w') ->
    (r = Ok VNone /\ all_endpoints_fail mint_address endpoints w w')
    \/ exists q, r = Ok (VFloat q).
Proof.
  induction endpoints as [| rpc rest IH]; intros w r w' H; simpl in H.
  - inversion H; subst. left. split; [reflexivity | constructor].
  - unfold try_except in H.
    destruct (supply_attempt rpc mint_address w) as [[v | e] w1] eqn:E.
    + inversion H; subst. right.
      destruct (supply_attempt_is_float _ _ _ _ _ E) as [q ->]. exists q. reflexivity.
    + destruct (IH _ _ _ H) as [[-> Hall] | Hq].
      * left. split; [reflexivity | econstructor; eassumption].
      * right. exact Hq.
Qed.

Lemma emits_supply_loop P mint_address endpoints :
  (forall rpc, In rpc endpoints -> P (Request (supply_request rpc mint_address))) ->
  emits P (supply_loop endpoints mint_address).
Proof.
  induction endpoints as [| rpc rest IH]; intros HP; simpl.
  - apply emits_ret.
  - apply emits_try_except.
    + unfold supply_attempt.
      apply emits_bind; [apply emits_urlopen_json, HP; left; reflexivity |].
      intros doc. repeat (apply emits_bind; [apply emits_lift | intros ?]).
      apply emits_lift.
    + intros _. apply IH. intros r Hr. apply HP. right. exact Hr.
Qed.

(** ** The blockchain path never asks the Hylo API *)

Lemma emits_fetch_price P mint :
  P (Request (retry_request (price_url mint) None)) -> (forall q, P (Sleep q)) ->
  emits P (doc <- fetch_with_retry (price_url mint) None 3 ;;
           entry <- lift (py_get doc mint (VDict [])) ;;
           lift (py_get entry "usdPrice" (VInt 0))).
Proof.
  intros HR HS. apply emits_bind; [apply emits_fetch_with_retry; assumption |].
  intros doc. apply emits_bind; [apply emits_lift | intros; apply emits_lift].
Qed.

Lemma fallback_avoids_hylo :
  emits (avoids HYLO_API) fetch_blockchain_fallback.
Proof.
  unfold fetch_blockchain_fallback. apply emits_bind.
  - apply emits_supply_loop. intros rpc [<- | [<- | []]]; simpl; discriminate.
  - intros supply. destruct (negb (truthy supply)); [apply emits_raise |].
    apply emits_bind;
      [apply emits_fetch_price; [simpl; discriminate | intros; exact I] |].
    intros sol. apply emits_bind;
      [apply emits_fetch_price; [simpl; discriminate | intros; exact I] |].
    intros xsol.
    destruct (negb (truthy sol) || negb (truthy xsol)); [apply emits_raise |].
    repeat (apply emits_bind; [apply emits_lift | intros ?]).
    apply emits_ret.
Qed.

(** ** What a successful run of either path went through *)

Lemma hylo_primary_Ok w metrics w' :
  hylo_primary w = (Ok metrics, w') -> primary_run w w' metrics.
Proof.
  unfold hylo_primary. intros H. inv_run.
  match goal with
  | H1 : py_mul ?p ?s = Ok ?a, H2 : py_mul ?p ?s = Ok ?b |- _ =>
    assert (a = b) by congruence; subst
  end.
  econstructor; try eassumption; [econstructor; eassumption | reflexivity].
Qed.

Lemma fallback_Ok w metrics w' :
  fetch_blockchain_fallback w = (Ok metrics, w') -> fallback_run w w' metrics.
Proof.
  unfold fetch_blockchain_fallback. intros H.
  apply bind_Ok in H. destruct H as (supply & w1 & Hs & H).
  destruct (truthy supply) eqn:Ts; simpl in H; [| discriminate H].
  apply bind_Ok in H. destruct H as (sol & w2 & Hsol & H).
  apply bind_Ok in H. destruct H as (price & w3 & Hp & H).
  destruct (truthy sol) eqn:Tsol; simpl in H; [| discriminate H].
  destruct (truthy price) eqn:Tp; simpl in H; [| discriminate H].
  inv_run.
  match goal with
  | H1 : py_mul ?p ?s = Ok ?a, H2 : py_mul ?p ?s = Ok ?b |- _ =>
    assert (a = b) by congruence; subst
  end.
  econstructor; try eassumption; [econstructor; eassumption | reflexivity].
Qed.

(** ** Escalation from the Hylo path to the blockchain path *)

Lemma get_metrics_after_raise w e w1 :
  hylo_primary w = (Raise e, w1) ->
  get_metrics w = fetch_blockchain_fallback w1.
Proof. intros H. unfold get_metrics, try_except. rewrite H. reflexivity. Qed.

Lemma do_GET_fallback_Ok w e w1 metrics w2 :
  hylo_primary w = (Raise e, w1) ->
  fetch_blockchain_fallback w1 = (Ok metrics, w2) ->
  do_GET w = (ok_response metrics, w2).
Proof.
  intros H1 H2. unfold do_GET. rewrite (get_metrics_after_raise _ _ _ H1), H2.
  reflexivity.
Qed.

Lemma do_GET_fallback_Raise w e w1 e2 w2 :
  hylo_primary w = (Raise e, w1) ->
  fetch_blockchain_fallback w1 = (Raise e2, w2) ->
  do_GET w = (error_response e2, w2).
Proof.
  intros H1 H2. unfold do_GET. rewrite (get_metrics_after_raise _ _ _ H1), H2.
  reflexivity.
Qed.

Lemma hylo_primary_all_fail w :
  (forall k, (k < 3)%nat ->
     exists e, network (calls w + k) (retry_request HYLO_API (Some hylo_headers)) = Fails e) ->
  exists e w1, hylo_primary w = (Raise e, w1).
Proof.
  intros H.
  destruct (fetch_with_retry_all_fail HYLO_API (Some hylo_headers) 3 w) as (e & w1 & E);
    [lia | exact H |].
  exists e, w1. unfold hylo_primary, fetch_hylo_api.
  rewrite (bind_run_Raise _ _ _ _ _ E). reflexivity.
Qed.

(** C1. When the Hylo API request fails on each of its three attempts, or
    the Hylo path raises for any other reason, the handler continues
    with [fetch_blockchain_fallback] from the state the Hylo path left:
    the metrics of the request are those of the blockchain path, a
    record it returns is sent with status 200 and carries the source tag
    [blockchain-fallback], and no request of the blockchain path goes to
    the Hylo API. *)
Theorem fallback_after_primary_failure w :
  (forall k, (k < 3)%nat ->
     exists e, network (calls w + k) (retry_request HYLO_API (Some hylo_headers)) = Fails e)
  \/ (exists e w1, hylo_primary w = (Raise e, w1)) ->
  exists e w1,
    hylo_primary w = (Raise e, w1)
    /\ get_metrics w = fetch_blockchain_fallback w1
    /\ (forall metrics w2,
          fetch_blockchain_fallback w1 = (Ok metrics, w2) ->
          do_GET w = (ok_response metrics, w2)
          /\ py_getitem metrics "source" = Ok (VStr "blockchain-fallback"))
    /\ (forall r w2,
          fetch_blockchain_fallback w1 = (r, w2) ->
          extends (avoids HYLO_API) w1 w2).
Proof.
  intros H.
  assert (exists e w1, hylo_primary w = (Raise e, w1)) as (e & w1 & E).
  { destruct H as [H | H]; [apply hylo_primary_all_fail, H | exact H]. }
  exists e, w1. split; [exact E |]. split; [eapply get_metrics_after_raise, E |].
  split.
  - intros metrics w2 F. split; [eapply do_GET_fallback_Ok; eassumption |].
    destruct (fallback_Ok _ _ _ F). subst metrics. reflexivity.
  - intros r w2 F. eapply fallback_avoids_hylo, F.
Qed.

(** ** Failure of the blockchain path *)

Lemma fallback_no_supply w supply w1 :
  fetch_token_supply XSOL_MINT w = (Ok supply, w1) ->
  truthy supply = false ->
  fetch_blockchain_fallback w = (Raise supply_failure, w1).
Proof.
  intros H T. unfold fetch_blockchain_fallback.
  rewrite (bind_run_Ok _ _ _ _ _ H), T. reflexivity.
Qed.

Lemma fallback_price_lookups w supply w1 sol w2 r w3 :
  fetch_token_supply XSOL_MINT w = (Ok supply, w1) ->
  truthy supply = true ->
  fetch_sol_price w1 = (Ok sol, w2) ->
  fetch_xsol_price w2 = (r, w3) ->
  truthy sol = false \/ (exists price, r = Ok price /\ truthy price = false) ->
  fetch_blockchain_fallback w
  = (Raise match r with Ok _ => price_failure | Raise e => e end, w3).
Proof.
  intros Hs Ts Hsol Hx Hf. unfold fetch_blockchain_fallback.
  rewrite (bind_run_Ok _ _ _ _ _ Hs), Ts. simpl.
  rewrite (bind_run_Ok _ _ _ _ _ Hsol).
  destruct r as [price | e].
  - rewrite (bind_run_Ok _ _ _ _ _ Hx).
    destruct Hf as [-> | (p & Hp & Tp)]; [reflexivity |].
    inversion Hp; subst. rewrite Tp, orb_true_r. reflexivity.
  - rewrite (bind_run_Raise _ _ _ _ _ Hx). reflexivity.
Qed.

(** C2. Once the Hylo path has raised: when every RPC endpoint fails, or
    the supply is known and a price lookup returns a falsy value, the
    blockchain path raises and the handler answers 500 with a body of
    exactly three fields: [error] with the text of that exception, the
    fixed [message] and the fixed [suggestion]. The exception is the
    supply failure in the first case and the price failure in the second
    (or what the second price lookup raised, when the first price was
    falsy). *)
Theorem fallback_failure_is_500 w e0 w1 w2 r :
  hylo_primary w = (Raise e0, w1) ->
  all_endpoints_fail XSOL_MINT SOLANA_RPC_ENDPOINTS w1 w2
  \/ falsy_price w1 w2 r ->
  exists e,
    fetch_blockchain_fallback w1 = (Raise e, w2)
    /\ do_GET w
       = ({| status := 500;
             sent_headers := [ ("Content-type", "application/json");
                               ("Access-Control-Allow-Origin", "*") ];
             body := VDict
               [ ("error", VStr (str_exn e));
                 ("message", VStr "Failed to fetch xSOL metrics");
                 ("suggestion", VStr "Try again later or use cached Gist data") ] |},
          w2)
    /\ (all_endpoints_fail XSOL_MINT SOLANA_RPC_ENDPOINTS w1 w2 ->
        e = PyExc "Exception" "Failed to fetch xSOL supply from blockchain")
    /\ (falsy_price w1 w2 r ->
        e = match r with
            | Ok _ => PyExc "Exception" "Failed to fetch prices from Jupiter"
            | Raise e' => e'
            end).
Proof.
  intros Hp H.
  assert (Hno : forall wa wb,
            all_endpoints_fail XSOL_MINT SOLANA_RPC_ENDPOINTS w1 wa ->
            falsy_price w1 wb r -> False).
  { intros wa wb Ha (supply & wc & sol & wd & Hs & Ts & _).
    apply supply_loop_all_fail in Ha. unfold fetch_token_supply in Hs.
    rewrite Ha in Hs. inversion Hs; subst. discriminate Ts. }
  destruct H as [Ha | Hf].
  - assert (F : fetch_blockchain_fallback w1 = (Raise supply_failure, w2)).
    { eapply fallback_no_supply; [apply supply_loop_all_fail, Ha | reflexivity]. }
    exists supply_failure. split; [exact F |].
    split; [eapply do_GET_fallback_Raise; eassumption |].
    split; [reflexivity |]. intros Hf. exfalso. eapply Hno; eassumption.
  - pose proof Hf as (supply & wa & sol & wb & Hs & Ts & Hsol & Hx & Hc).
    pose proof (fallback_price_lookups _ _ _ _ _ _ _ Hs Ts Hsol Hx Hc) as F.
    eexists. split; [exact F |].
    split; [eapply do_GET_fallback_Raise; eassumption |].
    split; [| reflexivity]. intros Ha. exfalso. eapply Hno; eassumption.
Qed.

(** C9. Once the Hylo path has raised: when the endpoints before some
    endpoint [rpc] fail and [rpc] answers with a ui-amount of zero, the
    supply query returns that zero without trying a later endpoint, the
    blockchain path raises the supply failure and the handler answers
    500. The same falsy test guards the two prices: with a truthy
    supply, a falsy price of either lookup raises the price failure. *)
Theorem zero_supply_is_failure w e0 w1 earlier rpc later wa q w2 :
  hylo_primary w = (Raise e0, w1) ->
  SOLANA_RPC_ENDPOINTS = earlier ++ rpc :: later ->
  all_endpoints_fail XSOL_MINT earlier w1 wa ->
  supply_attempt rpc XSOL_MINT wa = (Ok (VFloat q), w2) ->
  (q == 0)%Q ->
  fetch_token_supply XSOL_MINT w1 = (Ok (VFloat q), w2)
  /\ fetch_blockchain_fallback w1
     = (Raise (PyExc "Exception" "Failed to fetch xSOL supply from blockchain"), w2)
  /\ do_GET w
     = (error_response (PyExc "Exception" "Failed to fetch xSOL supply from blockchain"), w2)
  /\ (forall v supply v1 sol v2 price v3,
        fetch_token_supply XSOL_MINT v = (Ok supply, v1) ->
        truthy supply = true ->
        fetch_sol_price v1 = (Ok sol, v2) ->
        fetch_xsol_price v2 = (Ok price, v3) ->
        truthy sol = false \/ truthy price = false ->
        fetch_blockchain_fallback v
        = (Raise (PyExc "Exception" "Failed to fetch prices from Jupiter"), v3)).
Proof.
  intros Hp Hsplit Ha Hr Hq.
  assert (Hs : fetch_token_supply XSOL_MINT w1 = (Ok (VFloat q), w2)).
  { unfold fetch_token_supply. rewrite Hsplit.
    eapply supply_loop_first_answer; eassumption. }
  assert (T : truthy (VFloat q) = false).
  { simpl. unfold Qeq in Hq. simpl in Hq.
    replace (Qnum q) with 0 by lia. reflexivity. }
  pose proof (fallback_no_supply _ _ _ Hs T) as F.
  split; [exact Hs |]. split; [exact F |].
  split; [eapply do_GET_fallback_Raise; eassumption |].
  intros v supply v1 sol v2 price v3 H1 T1 H2 H3 Hc.
  apply (fallback_price_lookups _ _ _ _ _ (Ok price) _ H1 T1 H2 H3).
  destruct Hc as [Hc | Hc]; [left; exact Hc | right; exists price; split; [reflexivity | exact Hc]].
Qed.

(** ** The record of either path *)

(** C4. In the record of either path, [Collateral_TVL] is the Python
    value of [HYusd_supply + xSOL_price * xSOL_supply] over the record's
    own fields. On the Hylo path these three are the fields of the
    upstream [exchangeStats]; on the blockchain path the stable supply is
    the constant 18000000. *)
Theorem collateral_tvl_formula p w metrics w' :
  metrics_of p w = (Ok metrics, w') ->
  exists stable price supply lever_value tvl,
    py_getitem metrics "HYusd_supply" = Ok stable
    /\ py_getitem metrics "xSOL_price" = Ok price
    /\ py_getitem metrics "xSOL_supply" = Ok supply
    /\ py_getitem metrics "Collateral_TVL" = Ok tvl
    /\ py_mul price supply = Ok lever_value
    /\ py_add stable lever_value = Ok tvl
    /\ match p with
       | Primary =>
         exists doc w1 stats,
           fetch_hylo_api w = (Ok doc, w1)
           /\ py_getitem doc "exchangeStats" = Ok stats
           /\ py_getitem stats "stablecoinSupply" = Ok stable
           /\ py_getitem stats "levercoinNav" = Ok price
           /\ py_getitem stats "levercoinSupply" = Ok supply
       | Fallback => stable = VInt 18000000
       end.
Proof.
  destruct p; simpl; intros H.
  - destruct (hylo_primary_Ok _ _ _ H)
      as [doc w1 stats stable price supply ratio mode sol tvl tvl_sol lev
          Hd Hst Hs Hp Hn Hr Hm Hsol [lv M A D1 D2] ->].
    exists stable, price, supply, lv, tvl.
    repeat (split; [first [reflexivity | assumption] |]).
    exists doc, w1, stats. repeat split; assumption.
  - destruct (fallback_Ok _ _ _ H)
      as [supply w1 sol w2 price tvl tvl_sol lev Hs Ts Hsol Hp Tsol Tp [lv M A D1 D2] ->].
    exists (VInt 18000000), price, supply, lv, tvl.
    repeat (split; [first [reflexivity | assumption] |]). reflexivity.
Qed.

(** C5. In the record of either path, [Effective_Leverage] is the Python
    value of [Collateral_TVL / (xSOL_price * xSOL_supply)] and
    [Collateral_TVL_SOL] that of [Collateral_TVL / SOL_price], over the
    record's own fields. *)
Theorem leverage_and_base_formulas p w metrics w' :
  metrics_of p w = (Ok metrics, w') ->
  exists price supply sol tvl lever_value leverage tvl_sol,
    py_getitem metrics "xSOL_price" = Ok price
    /\ py_getitem metrics "xSOL_supply" = Ok supply
    /\ py_getitem metrics "SOL_price" = Ok sol
    /\ py_getitem metrics "Collateral_TVL" = Ok tvl
    /\ py_getitem metrics "Effective_Leverage" = Ok leverage
    /\ py_getitem metrics "Collateral_TVL_SOL" = Ok tvl_sol
    /\ py_mul price supply = Ok lever_value
    /\ py_truediv tvl lever_value = Ok leverage
    /\ py_truediv tvl sol = Ok tvl_sol.
Proof.
  destruct p; simpl; intros H.
  - destruct (hylo_primary_Ok _ _ _ H)
      as [doc w1 stats stable price supply ratio mode sol tvl tvl_sol lev
          Hd Hst Hs Hp Hn Hr Hm Hsol [lv M A D1 D2] ->].
    exists price, supply, sol, tvl, lv, lev, tvl_sol.
    repeat (split; [first [reflexivity | assumption] |]). assumption.
  - destruct (fallback_Ok _ _ _ H)
      as [supply w1 sol w2 price tvl tvl_sol lev Hs Ts Hsol Hp Tsol Tp [lv M A D1 D2] ->].
    exists price, supply, sol, tvl, lv, lev, tvl_sol.
    repeat (split; [first [reflexivity | assumption] |]). assumption.
Qed.

(** C6, as amended. In a record of the Hylo path the key
    [CollateralRatio] is present and holds the upstream [collateralRatio]
    as it came, null included, and there is no key [note]; in a record of
    the blockchain path [CollateralRatio] is null and [note] holds the
    text on the degraded accuracy. *)
Theorem collateral_ratio_and_note p w metrics w' :
  metrics_of p w = (Ok metrics, w') ->
  match p with
  | Primary =>
    (exists doc w1 stats ratio,
       fetch_hylo_api w = (Ok doc, w1)
       /\ py_getitem doc "exchangeStats" = Ok stats
       /\ py_getitem stats "collateralRatio" = Ok ratio
       /\ py_getitem metrics "CollateralRatio" = Ok ratio)
    /\ py_getitem metrics "note" = KeyError "note"
  | Fallback =>
    py_getitem metrics "CollateralRatio" = Ok VNone
    /\ py_getitem metrics "note"
       = Ok (VStr "CollateralRatio unavailable - using blockchain approximation")
  end.
Proof.
  destruct p; simpl; intros H.
  - destruct (hylo_primary_Ok _ _ _ H)
      as [doc w1 stats stable price supply ratio mode sol tvl tvl_sol lev
          Hd Hst Hs Hp Hn Hr Hm Hsol _ ->].
    split; [| reflexivity].
    exists doc, w1, stats, ratio. repeat split; first [assumption | reflexivity].
  - destruct (fallback_Ok _ _ _ H) as [? ? ? ? ? ? ? ? _ _ _ _ _ _ _ ->].
    split; reflexivity.
Qed.

(** C8. A record of the blockchain path has the constant 18000000 as
    [HYusd_supply], whatever the network answered, and its
    [Collateral_TVL] is 18000000 plus price times supply; with a supply
    of 1000000.0 and a price of 1.5 that is 19500000.0. *)
Theorem fallback_stable_supply_is_constant w metrics w' :
  fetch_blockchain_fallback w = (Ok metrics, w') ->
  py_getitem metrics "HYusd_supply" = Ok (VInt 18000000)
  /\ (exists price supply lever_value tvl,
        py_getitem metrics "xSOL_price" = Ok price
        /\ py_getitem metrics "xSOL_supply" = Ok supply
        /\ py_getitem metrics "Collateral_TVL" = Ok tvl
        /\ py_mul price supply = Ok lever_value
        /\ py_add (VInt 18000000) lever_value = Ok tvl)
  /\ (py_getitem metrics "xSOL_supply" = Ok (VFloat 1000000) ->
      py_getitem metrics "xSOL_price" = Ok (VFloat (3 # 2)) ->
      py_getitem metrics "Collateral_TVL" = Ok (VFloat 19500000)).
Proof.
  intros H.
  destruct (fallback_Ok _ _ _ H)
    as [supply w1 sol w2 price tvl tvl_sol lev Hs Ts Hsol Hp Tsol Tp [lv M A D1 D2] ->].
  split; [reflexivity |]. split.
  - exists price, supply, lv, tvl. repeat split; first [assumption | reflexivity].
  - simpl. intros Es Ep. inversion Es; inversion Ep; subst.
    vm_compute in M. inversion M; subst. vm_compute in A. symmetry. exact A.
Qed.

(** ** The retry policy *)

Lemma range_two n : 2 <= n -> exists a rest, range n = 0 :: a :: rest.
Proof.
  intros H. unfold range.
  destruct (Z.to_nat n) as [| [| k]] eqn:E; try lia.
  simpl. eexists. eexists. reflexivity.
Qed.

Lemma range_split n before a after :
  range n = before ++ a :: after -> a = Z.of_nat (List.length before) /\ a < n.
Proof.
  intros H.
  assert (L : (List.length before < Z.to_nat n)%nat).
  { rewrite <- length_range, H, length_app. simpl. lia. }
  assert (N : nth (List.length before) (range n) 0 = a).
  { rewrite H. apply nth_middle. }
  unfold range in N. change 0 with (Z.of_nat 0) in N.
  rewrite map_nth, seq_nth in N by exact L. simpl in N. lia.
Qed.

(** An exception that is not an [HTTPError] leaves the loop only from an
    attempt that is not allowed a retry. *)
Lemma retry_loop_other_error u h max_retries attempts :
  forall w cls msg w',
    retry_loop u h max_retries attempts w = (Raise (PyExc cls msg), w') ->
    exists before a after,
      attempts = before ++ a :: after
      /\ ~ a < max_retries - 1
      /\ calls w' = (calls w + S (List.length before))%nat.
Proof.
  induction attempts as [| attempt rest IH]; intros w cls msg w' H.
  - discriminate H.
  - assert (Step : forall w1,
      calls w1 = S (calls w) ->
      retry_loop u h max_retries rest w1 = (Raise (PyExc cls msg), w') ->
      exists before a after,
        attempt :: rest = before ++ a :: after
        /\ ~ a < max_retries - 1
        /\ calls w' = (calls w + S (List.length before))%nat).
    { intros w1 Hc Hr. destruct (IH _ _ _ _ Hr) as (b & a & r & -> & Ha & Hn).
      exists (attempt :: b), a, r. split; [reflexivity |]. split; [exact Ha |].
      simpl. lia. }
    destruct (network (calls w) (retry_request u h)) as [doc | [code m | c m]] eqn:E.
    + rewrite (retry_attempt_responds _ _ _ _ _ _ _ E) in H. discriminate H.
    + destruct (Z.eq_dec code 429) as [-> | Hc].
      * rewrite (retry_attempt_rate_limited _ _ _ _ _ _ _ E) in H.
        destruct (attempt <? max_retries - 1); [| discriminate H].
        eapply Step; [| exact H]. reflexivity.
      * rewrite (retry_attempt_http_error _ _ _ _ _ _ _ _ E Hc) in H. discriminate H.
    + rewrite (retry_attempt_other_error _ _ _ _ _ _ _ _ E) in H.
      destruct (attempt <? max_retries - 1) eqn:L.
      * eapply Step; [| exact H]. reflexivity.
      * inversion H; subst. exists [], attempt, rest.
        split; [reflexivity |]. split; [apply Z.ltb_ge in L; lia | simpl; lia].
Qed.

(** C7. A call allowed at least two attempts whose first request is
    answered 429 and whose second request is answered with a document
    returns that document after exactly two requests; between them it
    sleeps once, for [2 ** 0] seconds plus the jitter drawn from
    [random.uniform(0, 1)], which lies in [0, 1), so for at least one
    second. *)
Theorem rate_limit_then_success u h max_retries w msg doc :
  2 <= max_retries ->
  network (calls w) (retry_request u h) = Fails (HTTPError 429 msg) ->
  network (S (calls w)) (retry_request u h) = Responds doc ->
  (0 <= random (draws w))%Q ->
  (random (draws w) < 1)%Q ->
  let jitter := fadd 0 (fmul (fsub 1 0) (random (draws w))) in
  let wait := fadd (float_of_int (2 ^ 0)) jitter in
  exists w',
    fetch_with_retry u h max_retries w = (Ok doc, w')
    /\ calls w' = (calls w + 2)%nat
    /\ trace w' = trace w ++ [ Request (retry_request u h); Sleep wait;
                               Request (retry_request u h) ]
    /\ (0 <= jitter)%Q /\ (jitter < 1)%Q
    /\ (wait == inject_Z (2 ^ 0) + jitter)%Q
    /\ (1 <= wait)%Q.
Proof.
  intros Hn H1 H2 Hlo Hhi jitter wait.
  assert (Hj : (jitter == random (draws w))%Q).
  { unfold jitter, fadd, fmul, fsub. rewrite !Qred_correct. ring. }
  assert (Hw : (wait == inject_Z (2 ^ 0) + jitter)%Q).
  { unfold wait, fadd. rewrite Qred_correct. reflexivity. }
  destruct (range_two _ Hn) as (a & rest & R).
  set (req := retry_request u h) in *.
  assert (L : retry_loop u h max_retries (range max_retries) w
              = (Ok (Some doc), requested req (slept wait (drawn (requested req w))))).
  { rewrite R, (retry_attempt_rate_limited _ _ _ _ _ _ _ H1).
    replace (0 <? max_retries - 1) with true by (symmetry; apply Z.ltb_lt; lia).
    cbv zeta. apply retry_attempt_responds. exact H2. }
  exists (requested req (slept wait (drawn (requested req w)))).
  split; [| split; [| split; [| split; [| split; [| split]]]]].
  - unfold fetch_with_retry. rewrite (bind_run_Ok _ _ _ _ _ L). reflexivity.
  - simpl. lia.
  - simpl. rewrite <- !app_assoc. reflexivity.
  - rewrite Hj. exact Hlo.
  - rewrite Hj. exact Hhi.
  - exact Hw.
  - rewrite Hw, Hj. change (inject_Z (2 ^ 0)) with 1%Q.
    rewrite <- (Qplus_0_r 1) at 1.
    apply Qplus_le_r. exact Hlo.
Qed.

(** C3, as amended. An attempt that fails with an exception other than
    an [HTTPError] is followed by a sleep of one second and the next
    attempt, unless it is the last attempt allowed, which raises that
    exception; an [HTTPError] whose status is not 429 is raised at once,
    with no sleep and no further attempt. A call makes at most
    [max_retries] requests, and an exception other than an [HTTPError]
    reaches the caller only as the answer to request number
    [max_retries]. *)
Theorem retry_policy u h max_retries :
  (forall attempt rest w cls msg,
     network (calls w) (retry_request u h) = Fails (PyExc cls msg) ->
     retry_loop u h max_retries (attempt :: rest) w
     = if attempt <? max_retries - 1
       then retry_loop u h max_retries rest
              (slept 1 (requested (retry_request u h) w))
       else (Raise (PyExc cls msg), requested (retry_request u h) w))
  /\ (forall attempt rest w code msg,
        network (calls w) (retry_request u h) = Fails (HTTPError code msg) ->
        code <> 429 ->
        retry_loop u h max_retries (attempt :: rest) w
        = (Raise (HTTPError code msg), requested (retry_request u h) w))
  /\ (forall w r w',
        fetch_with_retry u h max_retries w = (r, w') ->
        (calls w' <= calls w + Z.to_nat max_retries)%nat)
  /\ (forall w cls msg w',
        fetch_with_retry u h max_retries w = (Raise (PyExc cls msg), w') ->
        calls w' = (calls w + Z.to_nat max_retries)%nat
        /\ network (pred (calls w')) (retry_request u h) = Fails (PyExc cls msg)).
Proof.
  split; [intros; apply retry_attempt_other_error; assumption |].
  split; [intros; apply retry_attempt_http_error; assumption |].
  split.
  - intros w r w' H. unfold fetch_with_retry, bind in H.
    destruct (retry_loop u h max_retries (range max_retries) w) as [[[d |] | e] w1] eqn:E;
      inversion H; subst;
      apply retry_loop_answers_last in E; rewrite length_range in E; lia.
  - intros w cls msg w' H. apply fetch_with_retry_Raise in H.
    destruct (retry_loop_answers_last _ _ _ _ _ _ _ H) as [_ [_ Hnet]].
    split; [| exact Hnet].
    destruct (retry_loop_other_error _ _ _ _ _ _ _ _ H) as (b & a & r & Hs & Ha & Hc).
    destruct (range_split _ _ _ _ Hs) as [Hpos Hlt]. lia.
Qed.

(** C10, as amended. With [max_retries] at least one, the loop of
    [fetch_with_retry] never runs off its end: the call makes at least
    one request, and it returns the document that answered its last
    request or raises the exception that answered its last request. *)
Theorem fetch_with_retry_result u h max_retries w r w' :
  1 <= max_retries ->
  fetch_with_retry u h max_retries w = (r, w') ->
  (forall w'', retry_loop u h max_retries (range max_retries) w <> (Ok None, w''))
  /\ (calls w < calls w')%nat
  /\ network (pred (calls w')) (retry_request u h)
     = match r with
       | Ok doc => Responds doc
       | Raise e => Fails e
       end.
Proof.
  intros Hn H.
  split; [intros w''; apply retry_loop_range_not_None, Hn |].
  destruct r as [doc | e].
  - apply fetch_with_retry_Ok in H; [| exact Hn].
    apply retry_loop_answers_last in H. exact (proj2 H).
  - apply fetch_with_retry_Raise in H.
    apply retry_loop_answers_last in H. exact (proj2 H).
Qed.


(** * Further properties of the handler *)

(** ** Further vocabulary *)

(** The events of one call of [fetch_with_retry] that slept [waits]
    between its requests: a request, then a sleep and a request for
    every wait. *)
Definition retry_trace (r : request) (waits : list Q) : list event :=
  Request r :: flat_map (fun q => [Sleep q; Request r]) waits.

(** [int], [bool] and [float] values. *)
Definition is_number (v : value) : bool :=
  match as_float v with
  | Some _ => true
  | None => false
  end.

(** The fields of [exchangeStats] that the Hylo path reads with a
    subscript. *)
Definition required_fields : list string :=
  [ "stablecoinSupply"; "levercoinNav"; "levercoinSupply"; "collateralRatio" ].

(** The keys that the records of both paths have, in their order. *)
Definition common_keys : list string :=
  [ "HYusd_supply"; "xSOL_price"; "xSOL_supply"; "CollateralRatio"; "SOL_price";
    "StabilityMode"; "Collateral_TVL"; "Collateral_TVL_SOL"; "Effective_Leverage";
    "xSOL_icon_url"; "lastFetched"; "source" ].

(** The requests the handler is written to send. *)
Definition expected_request (r : request) : Prop :=
  r = hylo_request
  \/ r = retry_request (price_url SOL_MINT) None
  \/ r = retry_request (price_url XSOL_MINT) None
  \/ exists rpc, In rpc SOLANA_RPC_ENDPOINTS /\ r = supply_request rpc XSOL_MINT.

Definition expected (ev : event) : Prop :=
  match ev with
  | Request r => expected_request r
  | Sleep _ => True
  end.


(** The two assets whose price the handler looks up, each with its mint
    and its lookup function. *)
Inductive asset : Type := SOL | XSOL.

Definition mint_of (a : asset) : string :=
  match a with
  | SOL => SOL_MINT
  | XSOL => XSOL_MINT
  end.

Definition fetch_price (a : asset) : M value :=
  match a with
  | SOL => fetch_sol_price
  | XSOL => fetch_xsol_price
  end.

(** [m] makes at most [n] requests. *)
Definition within {A} (n : nat) (m : M A) : Prop :=
  forall w r w', m w = (r, w') -> (calls w <= calls w' <= calls w + n)%nat.

(** ** The supply query, endpoint by endpoint *)

Lemma supply_attempt_state rpc mint_address w r w' :
  supply_attempt rpc mint_address w = (r, w') ->
  w' = requested (supply_request rpc mint_address) w.
Proof.
  unfold supply_attempt, bind, urlopen_json, lift.
  destruct (network (calls w) (supply_request rpc mint_address)) as [doc | e].
  - destruct (py_getitem doc "result") as [res | e1]; [| intros H; inversion H; reflexivity].
    destruct (py_getitem res "value") as [val | e2]; [| intros H; inversion H; reflexivity].
    destruct (py_getitem val "uiAmount") as [amount | e3];
      intros H; inversion H; reflexivity.
  - intros H. inversion H. reflexivity.
Qed.

Lemma supply_loop_decompose mint_address endpoints :
  forall w r w',
    supply_loop endpoints mint_address w = (r, w') ->
    (r = Ok VNone /\ all_endpoints_fail mint_address endpoints w w')
    \/ exists q earlier rpc later wa,
         r = Ok (VFloat q)
         /\ endpoints = earlier ++ rpc :: later
         /\ all_endpoints_fail mint_address earlier w wa
         /\ supply_attempt rpc mint_address wa = (Ok (VFloat q), w').
Proof.
  induction endpoints as [| rpc rest IH]; intros w r w' H; simpl in H.
  - inversion H; subst. left. split; [reflexivity | constructor].
  - unfold try_except in H.
    destruct (supply_attempt rpc mint_address w) as [[v | e] w1] eqn:E.
    + inversion H; subst. right.
      destruct (supply_attempt_is_float _ _ _ _ _ E) as [q ->].
      exists q, [], rpc, rest, w. repeat split; [constructor | exact E].
    + destruct (IH _ _ _ H) as [[-> Hall] | (q & earlier & r0 & later & wa & -> & -> & Ha & Hr)].
      * left. split; [reflexivity | econstructor; eassumption].
      * right. exists q, (rpc :: earlier), r0, later, wa.
        repeat split; [econstructor; eassumption | exact Hr].
Qed.

(** X1. [fetch_token_supply] never raises. It returns [None] when every
    endpoint's attempt raised, and otherwise the float of the first
    endpoint, in the order of [SOLANA_RPC_ENDPOINTS], whose attempt did
    not raise. *)
Theorem fetch_token_supply_never_raises mint_address w :
  exists r w',
    fetch_token_supply mint_address w = (Ok r, w')
    /\ ((r = VNone /\ all_endpoints_fail mint_address SOLANA_RPC_ENDPOINTS w w')
        \/ exists q earlier rpc later wa,
             r = VFloat q
             /\ SOLANA_RPC_ENDPOINTS = earlier ++ rpc :: later
             /\ all_endpoints_fail mint_address earlier w wa
             /\ supply_attempt rpc mint_address wa = (Ok (VFloat q), w')).
Proof.
  unfold fetch_token_supply.
  destruct (supply_loop SOLANA_RPC_ENDPOINTS mint_address w) as [r w'] eqn:E.
  destruct (supply_loop_decompose _ _ _ _ _ E)
    as [[-> Hall] | (q & earlier & rpc & later & wa & -> & Hs & Ha & Hr)].
  - exists VNone, w'. split; [reflexivity |]. left. split; [reflexivity | exact Hall].
  - exists (VFloat q), w'. split; [reflexivity |]. right.
    exists q, earlier, rpc, later, wa. repeat split; assumption.
Qed.

Lemma supply_loop_trace mint_address endpoints :
  forall w r w',
    supply_loop endpoints mint_address w = (r, w') ->
    exists n,
      (n <= List.length endpoints)%nat
      /\ (endpoints <> [] -> (1 <= n)%nat)
      /\ trace w' = trace w
           ++ map (fun rpc => Request (supply_request rpc mint_address)) (firstn n endpoints)
      /\ calls w' = (calls w + n)%nat
      /\ draws w' = draws w.
Proof.
  induction endpoints as [| rpc rest IH]; intros w r w' H; simpl in H.
  - inversion H; subst. exists 0%nat. simpl.
    repeat split; [lia | intros C; congruence | symmetry; apply app_nil_r | lia].
  - unfold try_except in H.
    destruct (supply_attempt rpc mint_address w) as [[v | e] w1] eqn:E;
      pose proof (supply_attempt_state _ _ _ _ _ E) as ->.
    + inversion H; subst. exists 1%nat. simpl.
      repeat split; [lia | lia | lia].
    + destruct (IH _ _ _ H) as (n & Hn & _ & Ht & Hc & Hd).
      exists (S n). simpl in *. rewrite Ht, Hc, Hd, <- app_assoc. simpl.
      repeat split; lia.
Qed.


(** X3. With [max_retries] zero or negative, [fetch_with_retry] sends no
    request, does not sleep and returns [None]. *)
Theorem fetch_with_retry_without_attempts u h max_retries w :
  max_retries <= 0 ->
  fetch_with_retry u h max_retries w = (Ok VNone, w).
Proof.
  intros H. unfold fetch_with_retry, range.
  replace (Z.to_nat max_retries) with 0%nat by lia. reflexivity.
Qed.

(** ** Waiting between attempts *)

Lemma uniform_unit x : (fadd 0 (fmul (fsub 1 0) x) == x)%Q.
Proof. unfold fadd, fmul, fsub. rewrite !Qred_correct. ring. Qed.

Lemma backoff_bounds attempt j :
  0 <= attempt -> (0 <= j)%Q ->
  (inject_Z (2 ^ attempt) <= fadd (float_of_int (2 ^ attempt)) j)%Q
  /\ (1 <= fadd (float_of_int (2 ^ attempt)) j)%Q.
Proof.
  intros Ha Hj.
  assert (L : (inject_Z (2 ^ attempt) <= fadd (float_of_int (2 ^ attempt)) j)%Q).
  { unfold fadd, float_of_int. rewrite Qred_correct.
    rewrite <- (Qplus_0_r (inject_Z (2 ^ attempt))) at 1.
    apply Qplus_le_r. exact Hj. }
  split; [exact L |].
  apply Qle_trans with (inject_Z (2 ^ attempt)); [| exact L].
  assert (0 < 2 ^ attempt) by (apply Z.pow_pos_nonneg; lia).
  unfold Qle. simpl. lia.
Qed.

Lemma range_nonneg n : Forall (fun attempt => 0 <= attempt) (range n).
Proof.
  unfold range. apply Forall_forall. intros a Ha.
  apply in_map_iff in Ha. destruct Ha as (k & <- & _). lia.
Qed.

Lemma retry_loop_trace u h max_retries :
  (forall n, (0 <= random n)%Q) ->
  forall attempts,
    Forall (fun attempt => 0 <= attempt) attempts ->
    forall w r w',
      retry_loop u h max_retries attempts w = (r, w') ->
      r <> Ok None ->
      exists waits,
        trace w' = trace w ++ retry_trace (retry_request u h) waits
        /\ (List.length waits < List.length attempts)%nat
        /\ calls w' = (calls w + S (List.length waits))%nat
        /\ Forall (fun q => (1 <= q)%Q) waits.
Proof.
  intros Hrand. induction attempts as [| attempt rest IH]; intros Hpos w r w' H Hr.
  - inversion H; subst. exfalso. apply Hr. reflexivity.
  - inversion Hpos as [| ? ? Ha Hrest]; subst.
    assert (Stop : (r, w') = (r, requested (retry_request u h) w) ->
      exists waits,
        trace w' = trace w ++ retry_trace (retry_request u h) waits
        /\ (List.length waits < List.length (attempt :: rest))%nat
        /\ calls w' = (calls w + S (List.length waits))%nat
        /\ Forall (fun q => (1 <= q)%Q) waits).
    { intros E. inversion E; subst. exists []. simpl.
      repeat split; [lia | lia | constructor]. }
    assert (Step : forall q w1,
      (1 <= q)%Q ->
      trace w1 = trace w ++ [Request (retry_request u h); Sleep q] ->
      calls w1 = S (calls w) ->
      retry_loop u h max_retries rest w1 = (r, w') ->
      exists waits,
        trace w' = trace w ++ retry_trace (retry_request u h) waits
        /\ (List.length waits < List.length (attempt :: rest))%nat
        /\ calls w' = (calls w + S (List.length waits))%nat
        /\ Forall (fun q => (1 <= q)%Q) waits).
    { intros q w1 Hq Ht Hc Hl.
      destruct (IH Hrest _ _ _ Hl Hr) as (waits & T & L & C & F).
      exists (q :: waits). rewrite T, Ht, C, Hc, <- app_assoc. simpl.
      repeat split; [lia | lia | constructor; assumption]. }
    destruct (network (calls w) (retry_request u h)) as [doc | [code msg | cls msg]] eqn:E.
    + rewrite (retry_attempt_responds _ _ _ _ _ _ _ E) in H.
      apply Stop. inversion H; reflexivity.
    + destruct (Z.eq_dec code 429) as [-> | Hc].
      * rewrite (retry_attempt_rate_limited _ _ _ _ _ _ _ E) in H.
        destruct (attempt <? max_retries - 1).
        -- cbv zeta in H. eapply Step; [| | | exact H]; cycle 1.
           ++ simpl. rewrite <- app_assoc. reflexivity.
           ++ reflexivity.
           ++ apply backoff_bounds; [exact Ha |].
              match goal with
              | |- (0 <= fadd 0 (fmul (fsub 1 0) ?x))%Q =>
                pose proof (uniform_unit x) as Hu; rewrite Hu
              end.
              apply Hrand.
        -- apply Stop. inversion H; reflexivity.
      * rewrite (retry_attempt_http_error _ _ _ _ _ _ _ _ E Hc) in H.
        apply Stop. inversion H; reflexivity.
    + rewrite (retry_attempt_other_error _ _ _ _ _ _ _ _ E) in H.
      destruct (attempt <? max_retries - 1).
      * eapply Step; [| | | exact H]; cycle 1.
        -- simpl. rewrite <- app_assoc. reflexivity.
        -- reflexivity.
        -- discriminate.
      * apply Stop. inversion H; reflexivity.
Qed.

(** X4. A call of [fetch_with_retry] with [max_retries] at least one
    sends a request, then sleeps and sends the request again for every
    failed attempt it retries: it never sleeps after its last request,
    it sleeps fewer than [max_retries] times, and with a jitter that is
    not negative every sleep lasts at least one second. *)
Theorem fetch_with_retry_waits u h max_retries w r w' :
  1 <= max_retries ->
  (forall n, (0 <= random n)%Q) ->
  fetch_with_retry u h max_retries w = (r, w') ->
  exists waits,
    trace w' = trace w ++ retry_trace (retry_request u h) waits
    /\ (List.length waits < Z.to_nat max_retries)%nat
    /\ calls w' = (calls w + S (List.length waits))%nat
    /\ Forall (fun q => (1 <= q)%Q) waits.
Proof.
  intros Hn Hrand H.
  assert (L : exists r0,
             retry_loop u h max_retries (range max_retries) w = (r0, w')
             /\ r0 <> Ok None).
  { destruct r as [doc | e].
    - exists (Ok (Some doc)). split; [apply fetch_with_retry_Ok; assumption | discriminate].
    - exists (Raise e). split; [apply fetch_with_retry_Raise; assumption | discriminate]. }
  destruct L as (r0 & L & Hr0).
  destruct (retry_loop_trace u h max_retries Hrand _ (range_nonneg _) _ _ _ L Hr0)
    as (waits & T & Len & C & F).
  exists waits. rewrite length_range in Len. repeat split; assumption.
Qed.


(** ** Missing prices and missing fields *)

(** X6. When the price service answers with a dict that has no entry
    for the mint, or whose entry for the mint is a dict without
    [usdPrice], the price lookup returns the integer 0 and does not
    raise. *)
Theorem missing_price_is_zero a w d w' :
  fetch_with_retry (price_url (mint_of a)) None 3 w = (Ok (VDict d), w') ->
  assoc (mint_of a) d = None
  \/ (exists entry, assoc (mint_of a) d = Some (VDict entry)
                    /\ assoc "usdPrice" entry = None) ->
  fetch_price a w = (Ok (VInt 0), w').
Proof.
  intros F H.
  assert (G : (doc <- fetch_with_retry (price_url (mint_of a)) None 3 ;;
               entry <- lift (py_get doc (mint_of a) (VDict [])) ;;
               lift (py_get entry "usdPrice" (VInt 0))) w = (Ok (VInt 0), w')).
  { rewrite (bind_run_Ok _ _ _ _ _ F). unfold bind, lift. simpl.
    destruct H as [-> | (entry & -> & E)]; simpl; [reflexivity |].
    rewrite E. reflexivity. }
  destruct a; exact G.
Qed.

(** X7. When the Hylo document has no [exchangeStats], or its
    [exchangeStats] lacks one of the four fields read with a subscript,
    the Hylo path raises a [KeyError] right after the Hylo request,
    before any price lookup, and the handler goes on with the blockchain
    path. *)
Theorem missing_field_aborts_primary w doc w1 :
  fetch_hylo_api w = (Ok doc, w1) ->
  (exists top, doc = VDict top /\ assoc "exchangeStats" top = None)
  \/ (exists d k, py_getitem doc "exchangeStats" = Ok (VDict d)
                  /\ In k required_fields /\ assoc k d = None) ->
  exists k,
    (k = "exchangeStats" \/ In k required_fields)
    /\ hylo_primary w = (KeyError k, w1)
    /\ get_metrics w = fetch_blockchain_fallback w1.
Proof.
  intros F H.
  assert (R : exists k, (k = "exchangeStats" \/ In k required_fields)
                        /\ hylo_primary w = (KeyError k, w1)).
  { unfold hylo_primary. rewrite (bind_run_Ok _ _ _ _ _ F).
    destruct H as [(top & -> & E) | (d & k & S & Hin & E)].
    - exists "exchangeStats". split; [left; reflexivity |].
      unfold bind, lift. simpl. rewrite E. reflexivity.
    - unfold bind at 1, lift at 1. rewrite S.
      destruct (assoc "stablecoinSupply" d) as [v1 |] eqn:A1;
        [| exists "stablecoinSupply"; split; [right; simpl; tauto |];
           unfold bind, lift; simpl; rewrite A1; reflexivity].
      destruct (assoc "levercoinNav" d) as [v2 |] eqn:A2;
        [| exists "levercoinNav"; split; [right; simpl; tauto |];
           unfold bind, lift; simpl; rewrite A1, A2; reflexivity].
      destruct (assoc "levercoinSupply" d) as [v3 |] eqn:A3;
        [| exists "levercoinSupply"; split; [right; simpl; tauto |];
           unfold bind, lift; simpl; rewrite A1, A2, A3; reflexivity].
      destruct (assoc "collateralRatio" d) as [v4 |] eqn:A4;
        [| exists "collateralRatio"; split; [right; simpl; tauto |];
           unfold bind, lift; simpl; rewrite A1, A2, A3, A4; reflexivity].
      exfalso. simpl in Hin.
      destruct Hin as [<- | [<- | [<- | [<- | []]]]]; congruence. }
  destruct R as (k & Hk & P). exists k. split; [exact Hk |]. split; [exact P |].
  eapply get_metrics_after_raise, P.
Qed.

(** X8. [stabilityMode] is optional: the record of the Hylo path holds
    the upstream [stabilityMode] when [exchangeStats] has one, and the
    empty dict when it has none. *)
Theorem stability_mode_default w metrics w' :
  hylo_primary w = (Ok metrics, w') ->
  exists doc w1 d,
    fetch_hylo_api w = (Ok doc, w1)
    /\ py_getitem doc "exchangeStats" = Ok (VDict d)
    /\ py_getitem metrics "StabilityMode"
       = Ok match assoc "stabilityMode" d with
            | Some mode => mode
            | None => VDict []
            end.
Proof.
  intros H.
  destruct (hylo_primary_Ok _ _ _ H)
    as [doc w1 stats stable price supply ratio mode sol tvl tvl_sol lev
        Hd Hst Hs Hp Hn Hr Hm Hsol _ ->].
  destruct stats as [| | | | | | d]; try discriminate Hs.
  exists doc, w1, d. split; [exact Hd |]. split; [exact Hst |].
  simpl in Hm. simpl. destruct (assoc "stabilityMode" d); inversion Hm; reflexivity.
Qed.

(** ** The figures of a record are numbers *)

Lemma py_truediv_Ok a b c :
  py_truediv a b = Ok c ->
  exists x y, as_float a = Some x /\ as_float b = Some y
              /\ ~ (y == 0)%Q /\ c = VFloat (fdiv x y).
Proof.
  unfold py_truediv.
  destruct (as_float a) as [x |]; [| discriminate].
  destruct (as_float b) as [y |]; [| discriminate].
  destruct (Qnum y =? 0) eqn:Z0; [discriminate |].
  intros H. inversion H. exists x, y. repeat split.
  apply Z.eqb_neq in Z0. unfold Qeq. simpl. lia.
Qed.

Lemma py_add_number a b c :
  py_add a b = Ok c -> is_number c = true ->
  is_number a = true /\ is_number b = true.
Proof.
  destruct a as [| [] | | | | |], b as [| [] | | | | |];
    simpl; intros H N; inversion H; subst;
    first [discriminate N | split; reflexivity].
Qed.

Lemma py_mul_number a b c :
  py_mul a b = Ok c -> is_number c = true ->
  is_number a = true /\ is_number b = true.
Proof.
  destruct a as [| [] | | | | |], b as [| [] | | | | |];
    simpl; intros H N; inversion H; subst;
    first [discriminate N | split; reflexivity].
Qed.

Lemma derived_numbers stable price supply sol tvl tvl_sol leverage :
  derived stable price supply sol tvl tvl_sol leverage ->
  is_number stable = true /\ is_number price = true /\ is_number supply = true
  /\ is_number tvl = true
  /\ (exists s, as_float sol = Some s /\ ~ (s == 0)%Q)
  /\ (exists q, tvl_sol = VFloat q)
  /\ (exists q, leverage = VFloat q).
Proof.
  intros [lv M A D1 D2].
  destruct (py_truediv_Ok _ _ _ D1) as (x & s & Hx & Hs & Hz & ->).
  destruct (py_truediv_Ok _ _ _ D2) as (x' & y & _ & Hy & _ & ->).
  assert (Nt : is_number tvl = true) by (unfold is_number; rewrite Hx; reflexivity).
  assert (Nl : is_number lv = true) by (unfold is_number; rewrite Hy; reflexivity).
  destruct (py_add_number _ _ _ A Nt) as [Ns _].
  destruct (py_mul_number _ _ _ M Nl) as [Np Nn].
  repeat split; try assumption.
  - exists s. split; assumption.
  - eexists. reflexivity.
  - eexists. reflexivity.
Qed.

(** X9. A record of either path has numbers for the stable supply, the
    xSOL price, the xSOL supply and the collateral TVL, a SOL price that
    is a number other than zero, and floats for [Collateral_TVL_SOL] and
    [Effective_Leverage]: a string, a list, a dict or a null in one of
    these places, or a zero SOL price, makes the path raise instead. *)
Theorem record_figures_are_numbers p w metrics w' :
  metrics_of p w = (Ok metrics, w') ->
  exists stable price supply sol tvl s q1 q2,
    py_getitem metrics "HYusd_supply" = Ok stable
    /\ py_getitem metrics "xSOL_price" = Ok price
    /\ py_getitem metrics "xSOL_supply" = Ok supply
    /\ py_getitem metrics "SOL_price" = Ok sol
    /\ py_getitem metrics "Collateral_TVL" = Ok tvl
    /\ py_getitem metrics "Collateral_TVL_SOL" = Ok (VFloat q1)
    /\ py_getitem metrics "Effective_Leverage" = Ok (VFloat q2)
    /\ is_number stable = true /\ is_number price = true
    /\ is_number supply = true /\ is_number tvl = true
    /\ as_float sol = Some s /\ ~ (s == 0)%Q.
Proof.
  destruct p; simpl; intros H.
  - destruct (hylo_primary_Ok _ _ _ H)
      as [doc w1 stats stable price supply ratio mode sol tvl tvl_sol lev
          Hd Hst Hs Hp Hn Hr Hm Hsol D ->].
    destruct (derived_numbers _ _ _ _ _ _ _ D)
      as (N1 & N2 & N3 & N4 & (s & Hs' & Hz) & [q1 ->] & [q2 ->]).
    exists stable, price, supply, sol, tvl, s, q1, q2.
    repeat split; first [reflexivity | assumption].
  - destruct (fallback_Ok _ _ _ H)
      as [supply w1 sol w2 price tvl tvl_sol lev Hs Ts Hsol Hp Tsol Tp D ->].
    destruct (derived_numbers _ _ _ _ _ _ _ D)
      as (N1 & N2 & N3 & N4 & (s & Hs' & Hz) & [q1 ->] & [q2 ->]).
    exists (VInt 18000000), price, supply, sol, tvl, s, q1, q2.
    repeat split; first [reflexivity | assumption].
Qed.

(** X10. The records of the two paths have the same twelve keys in the
    same order, and the record of the blockchain path has [note] as a
    thirteenth; in both, [xSOL_icon_url] is null, [lastFetched] is the
    UTC time in ISO format followed by [Z], and [source] names the
    path. *)
Theorem record_schema p w metrics w' :
  metrics_of p w = (Ok metrics, w') ->
  exists d,
    metrics = VDict d
    /\ map fst d = common_keys ++ match p with
                                  | Primary => []
                                  | Fallback => ["note"]
                                  end
    /\ assoc "xSOL_icon_url" d = Some VNone
    /\ assoc "lastFetched" d = Some (VStr (utcnow_isoformat ++ "Z")%string)
    /\ assoc "source" d = Some (VStr match p with
                                     | Primary => "hylo-api"
                                     | Fallback => "blockchain-fallback"
                                     end).
Proof.
  destruct p; simpl; intros H.
  - destruct (hylo_primary_Ok _ _ _ H) as [? ? ? ? ? ? ? ? ? ? ? ? _ _ _ _ _ _ _ _ _ ->].
    eexists. split; [reflexivity |]. repeat split.
  - destruct (fallback_Ok _ _ _ H) as [? ? ? ? ? ? ? ? _ _ _ _ _ _ _ ->].
    eexists. split; [reflexivity |]. repeat split.
Qed.

(** ** What one request to the handler sends *)

Lemma emits_weaken {A} (P Q : event -> Prop) (m : M A) :
  (forall ev, P ev -> Q ev) -> emits P m -> emits Q m.
Proof.
  intros HPQ Hm w r w' H. destruct (Hm _ _ _ H) as (evs & T & F).
  exists evs. split; [exact T |]. eapply Forall_impl; [exact HPQ | exact F].
Qed.

Lemma emits_hylo_primary P :
  P (Request hylo_request) ->
  P (Request (retry_request (price_url SOL_MINT) None)) ->
  (forall q, P (Sleep q)) ->
  emits P hylo_primary.
Proof.
  intros H1 H2 HS. unfold hylo_primary.
  apply emits_bind; [apply emits_fetch_with_retry; assumption |].
  intros doc. do 6 (apply emits_bind; [apply emits_lift | intros ?]).
  apply emits_bind; [apply emits_fetch_price; assumption |].
  intros sol. repeat (apply emits_bind; [apply emits_lift | intros ?]).
  apply emits_ret.
Qed.

Lemma emits_fallback P :
  (forall rpc, In rpc SOLANA_RPC_ENDPOINTS -> P (Request (supply_request rpc XSOL_MINT))) ->
  P (Request (retry_request (price_url SOL_MINT) None)) ->
  P (Request (retry_request (price_url XSOL_MINT) None)) ->
  (forall q, P (Sleep q)) ->
  emits P fetch_blockchain_fallback.
Proof.
  intros HR H1 H2 HS. unfold fetch_blockchain_fallback. apply emits_bind.
  - apply emits_supply_loop. exact HR.
  - intros supply. destruct (negb (truthy supply)); [apply emits_raise |].
    apply emits_bind; [apply emits_fetch_price; assumption |].
    intros sol. apply emits_bind; [apply emits_fetch_price; assumption |].
    intros xsol.
    destruct (negb (truthy sol) || negb (truthy xsol)); [apply emits_raise |].
    repeat (apply emits_bind; [apply emits_lift | intros ?]).
    apply emits_ret.
Qed.

(** X11. Whatever the network answers, the handler only sends the
    requests it is written to send: a GET with the browser headers to the
    Hylo API, a GET without headers to the SOL or the xSOL price, each
    with a timeout of 15 seconds, or a POST of the [getTokenSupply]
    payload for the xSOL mint to one of the RPC endpoints with a timeout
    of 10 seconds. *)
Theorem do_GET_requests w resp w' :
  do_GET w = (resp, w') ->
  extends expected w w'
  /\ (forall r, expected_request r ->
        (timeout r = 15 /\ data r = None
         /\ (url r = HYLO_API /\ headers r = hylo_headers
             \/ (url r = price_url SOL_MINT \/ url r = price_url XSOL_MINT)
                /\ headers r = []))
        \/ (timeout r = 10 /\ data r = Some (supply_payload XSOL_MINT)
            /\ In (url r) SOLANA_RPC_ENDPOINTS
            /\ headers r = [("Content-Type", "application/json")])).
Proof.
  intros H. split.
  - assert (E : emits expected get_metrics).
    { unfold get_metrics. apply emits_try_except.
      - apply emits_hylo_primary; simpl; unfold expected_request; tauto.
      - intros _. apply emits_fallback; simpl; unfold expected_request; try tauto.
        intros rpc Hin. right. right. right. exists rpc. split; [exact Hin | reflexivity]. }
    unfold do_GET in H. destruct (get_metrics w) as [[m | e] w1] eqn:G;
      inversion H; subst; eapply E, G.
  - intros r [-> | [-> | [-> | (rpc & Hin & ->)]]].
    + left. repeat split. left. split; reflexivity.
    + left. repeat split. right. split; [left; reflexivity | reflexivity].
    + left. repeat split. right. split; [right; reflexivity | reflexivity].
    + right. repeat split. exact Hin.
Qed.



(** ** How many requests one request to the handler costs *)

Lemma within_ret {A} (a : A) : within 0 (ret a).
Proof. intros w r w' H. inversion H. lia. Qed.

Lemma within_raise {A} e : within 0 (@raise A e).
Proof. intros w r w' H. inversion H. lia. Qed.

Lemma within_lift {A} (x : result A) : within 0 (lift x).
Proof. intros w r w' H. inversion H. lia. Qed.

Lemma within_bind {A B} n k (m : M A) (f : A -> M B) :
  within n m -> (forall a, within k (f a)) -> within (n + k) (bind m f).
Proof.
  intros Hm Hf w r w'. unfold bind.
  destruct (m w) as [[a | e] w1] eqn:E; intros H.
  - specialize (Hm _ _ _ E). specialize (Hf _ _ _ _ H). lia.
  - inversion H; subst. specialize (Hm _ _ _ E). lia.
Qed.

Lemma within_try_except {A} n k (m : M A) (h : exn -> M A) :
  within n m -> (forall e, within k (h e)) -> within (n + k) (try_except m h).
Proof.
  intros Hm Hh w r w'. unfold try_except.
  destruct (m w) as [[a | e] w1] eqn:E; intros H.
  - inversion H; subst. specialize (Hm _ _ _ E). lia.
  - specialize (Hm _ _ _ E). specialize (Hh _ _ _ _ H). lia.
Qed.

Lemma within_le {A} n k (m : M A) : (n <= k)%nat -> within n m -> within k m.
Proof. intros L Hm w r w' H. specialize (Hm _ _ _ H). lia. Qed.

Lemma within_fetch_with_retry u h : within 3 (fetch_with_retry u h 3).
Proof.
  intros w r w' H. unfold fetch_with_retry, bind in H.
  destruct (retry_loop u h 3 (range 3) w) as [[[d |] | e] w1] eqn:E;
    inversion H; subst;
    apply retry_loop_answers_last in E; simpl in E; lia.
Qed.

Lemma within_fetch_price mint :
  within 3 (doc <- fetch_with_retry (price_url mint) None 3 ;;
            entry <- lift (py_get doc mint (VDict [])) ;;
            lift (py_get entry "usdPrice" (VInt 0))).
Proof.
  apply (within_bind 3 0); [apply within_fetch_with_retry |].
  intros doc. apply (within_bind 0 0); [apply within_lift | intros; apply within_lift].
Qed.

Lemma within_fetch_token_supply mint_address : within 2 (fetch_token_supply mint_address).
Proof.
  intros w r w' H. unfold fetch_token_supply in H.
  destruct (supply_loop_trace _ _ _ _ _ H) as (n & Hn & _ & _ & Hc & _).
  simpl in Hn. lia.
Qed.

Lemma within_hylo_primary : within 6 hylo_primary.
Proof.
  unfold hylo_primary.
  apply (within_bind 3 3); [apply within_fetch_with_retry |].
  intros doc. do 6 (apply (within_bind 0 3); [apply within_lift | intros ?]).
  apply (within_bind 3 0); [apply within_fetch_price |].
  intros sol. repeat (apply (within_bind 0 0); [apply within_lift | intros ?]).
  apply within_ret.
Qed.

Lemma within_fallback : within 8 fetch_blockchain_fallback.
Proof.
  unfold fetch_blockchain_fallback.
  apply (within_bind 2 6); [apply within_fetch_token_supply |].
  intros supply.
  destruct (negb (truthy supply)); [apply (within_le 0); [lia | apply within_raise] |].
  apply (within_bind 3 3); [apply within_fetch_price |].
  intros sol. apply (within_bind 3 0); [apply within_fetch_price |].
  intros xsol.
  destruct (negb (truthy sol) || negb (truthy xsol)); [apply within_raise |].
  repeat (apply (within_bind 0 0); [apply within_lift | intros ?]).
  apply within_ret.
Qed.

(** X14. One request to the handler costs at most fourteen outbound
    requests: at most six on the Hylo path, and at most eight more on
    the blockchain path; an answer built by the Hylo path costs at most
    six. *)
Theorem do_GET_request_budget w resp w' :
  do_GET w = (resp, w') ->
  (calls w <= calls w' <= calls w + 14)%nat
  /\ (py_getitem (body resp) "source" = Ok (VStr "hylo-api") ->
      (calls w' <= calls w + 6)%nat).
Proof.
  unfold do_GET, get_metrics, try_except. intros H.
  destruct (hylo_primary w) as [[m | e0] w1] eqn:P.
  - inversion H; subst. pose proof (within_hylo_primary _ _ _ P). split; [lia |].
    intros _. lia.
  - pose proof (within_hylo_primary _ _ _ P) as B1.
    destruct (fetch_blockchain_fallback w1) as [[m | e] w2] eqn:F;
      pose proof (within_fallback _ _ _ F) as B2; inversion H; subst.
    + split; [lia |]. simpl. intros S.
      destruct (fallback_Ok _ _ _ F) as [? ? ? ? ? ? ? ? _ _ _ _ _ _ _ ->].
      discriminate S.
    + split; [lia |]. simpl. intros S. discriminate S.
Qed.

(** ** The blockchain approximation with positive inputs *)


End Handler.

(** ** The scenarios, run *)

(** Witness of C1, at [net_fallback]: three timeouts of the Hylo API, then the
    blockchain path answers 200 with its own source tag. *)
Lemma fallback_after_primary_failure_witness :
  exists metrics w2,
    do_GET net_fallback half noon no_float world0 = (ok_response metrics, w2)
    /\ py_getitem metrics "source" = Ok (VStr "blockchain-fallback")
    /\ extends (avoids HYLO_API) after_hylo_timeouts w2.
Proof.
  destruct (fallback_after_primary_failure net_fallback half noon no_float world0)
    as (e & w1 & E & _ & Hok & Htrace).
  - left. intros k Hk. exists (PyExc "URLError" "<urlopen error timed out>").
    destruct k as [| [| [| k]]]; [reflexivity | reflexivity | reflexivity | lia].
  - assert (E' : hylo_primary net_fallback half noon world0
                 = (Raise (PyExc "URLError" "<urlopen error timed out>"),
                    after_hylo_timeouts)) by reflexivity.
    rewrite E' in E. inversion E; subst e w1.
    destruct (fetch_blockchain_fallback net_fallback half noon no_float after_hylo_timeouts)
      as [[metrics | e2] w2] eqn:F; [| discriminate F].
    exists metrics, w2. destruct (Hok metrics w2 eq_refl) as [D S].
    split; [exact D |]. split; [exact S | apply (Htrace _ _ eq_refl)].
Defined.

(** Witness of C2, at [net_down], where both endpoints time out, and at
    [net_no_price], where the price service has no SOL price. *)
Lemma fallback_failure_is_500_witness :
  do_GET net_down half noon no_float world0
  = (error_response (PyExc "Exception" "Failed to fetch xSOL supply from blockchain"),
     requested second_rpc (requested first_rpc after_hylo_timeouts))
  /\ fst (do_GET net_no_price half noon no_float world0)
     = error_response (PyExc "Exception" "Failed to fetch prices from Jupiter").
Proof.
  split.
  - destruct (fallback_failure_is_500 net_down half noon no_float world0
                (PyExc "URLError" "<urlopen error timed out>") after_hylo_timeouts
                (requested second_rpc (requested first_rpc after_hylo_timeouts))
                (Ok VNone))
      as (e & _ & D & Hs & _).
    + reflexivity.
    + left. econstructor; [reflexivity |]. econstructor; [reflexivity |]. constructor.
    + rewrite D, Hs; [reflexivity |].
      econstructor; [reflexivity |]. econstructor; [reflexivity |]. constructor.
  - set (w1 := requested first_rpc after_hylo_refused).
    set (w2 := requested (retry_request (price_url SOL_MINT) None) w1).
    set (w3 := requested (retry_request (price_url XSOL_MINT) None) w2).
    assert (Hf : falsy_price net_no_price half no_float after_hylo_refused w3
                   (Ok (VFloat (3 # 2)))).
    { exists (VFloat 1000000), w1, (VInt 0), w2.
      repeat split; try reflexivity. left. reflexivity. }
    destruct (fallback_failure_is_500 net_no_price half noon no_float world0
                (HTTPError 503 "HTTP Error 503: Service Unavailable")
                after_hylo_refused w3 (Ok (VFloat (3 # 2))))
      as (e & _ & D & _ & Hp).
    + reflexivity.
    + right. exact Hf.
    + rewrite D, (Hp Hf). reflexivity.
Defined.

(** Witness of C9, at [net_zero_supply]: the first endpoint reports a supply of
    zero, the second is never asked. *)
Lemma zero_supply_is_failure_witness :
  do_GET net_zero_supply half noon no_float world0
  = (error_response (PyExc "Exception" "Failed to fetch xSOL supply from blockchain"),
     requested first_rpc after_hylo_refused).
Proof.
  apply (zero_supply_is_failure net_zero_supply half noon no_float world0
           (HTTPError 503 "HTTP Error 503: Service Unavailable")
           after_hylo_refused [] "https://api.mainnet-beta.solana.com"
           ["https://rpc.ankr.com/solana"] after_hylo_refused 0
           (requested first_rpc after_hylo_refused)).
  - reflexivity.
  - reflexivity.
  - constructor.
  - reflexivity.
  - reflexivity.
Defined.

(** Witness of C4, on both paths: 18000000 + 1.5 * 1000000 is 19500000.0, from the
    Hylo API at [net_primary] and from the blockchain at [net_fallback]. *)
Lemma collateral_tvl_formula_witness :
  (exists metrics w',
     hylo_primary net_primary half noon world0 = (Ok metrics, w')
     /\ py_getitem metrics "HYusd_supply" = Ok (VInt 18000000)
     /\ py_getitem metrics "Collateral_TVL" = Ok (VFloat 19500000))
  /\ (exists metrics w',
        fetch_blockchain_fallback net_fallback half noon no_float after_hylo_timeouts
        = (Ok metrics, w')
        /\ py_getitem metrics "HYusd_supply" = Ok (VInt 18000000)
        /\ py_getitem metrics "Collateral_TVL" = Ok (VFloat 19500000)).
Proof.
  split.
  - destruct (hylo_primary net_primary half noon world0) as [[metrics | e] w'] eqn:E;
      [| discriminate E].
    exists metrics, w'. split; [reflexivity |].
    destruct (collateral_tvl_formula net_primary half noon no_float Primary world0 metrics w' E)
      as (stable & price & supply & lv & tvl & Hs & Hp & Hn & Ht & M & A & _).
    inversion E; subst metrics. split; reflexivity.
  - destruct (fetch_blockchain_fallback net_fallback half noon no_float after_hylo_timeouts)
      as [[metrics | e] w'] eqn:E; [| discriminate E].
    exists metrics, w'. split; [reflexivity |].
    destruct (collateral_tvl_formula net_fallback half noon no_float Fallback
                after_hylo_timeouts metrics w' E)
      as (stable & price & supply & lv & tvl & Hs & Hp & Hn & Ht & M & A & Hc).
    simpl in Hc. subst stable. split; [exact Hs |].
    inversion E; subst metrics. reflexivity.
Defined.

(** Witness of C5, on both paths: 19500000 / 1500000 is 13.0 and 19500000 / 150 is
    130000.0. *)
Lemma leverage_and_base_formulas_witness :
  (exists metrics w',
     hylo_primary net_primary half noon world0 = (Ok metrics, w')
     /\ py_getitem metrics "Effective_Leverage" = Ok (VFloat 13)
     /\ py_getitem metrics "Collateral_TVL_SOL" = Ok (VFloat 130000))
  /\ (exists metrics w',
        fetch_blockchain_fallback net_fallback half noon no_float after_hylo_timeouts
        = (Ok metrics, w')
        /\ py_getitem metrics "Effective_Leverage" = Ok (VFloat 13)
        /\ py_getitem metrics "Collateral_TVL_SOL" = Ok (VFloat 130000)).
Proof.
  split.
  - destruct (hylo_primary net_primary half noon world0) as [[metrics | e] w'] eqn:E;
      [| discriminate E].
    exists metrics, w'. split; [reflexivity |].
    pose proof (leverage_and_base_formulas net_primary half noon no_float Primary
                  world0 metrics w' E) as _.
    inversion E; subst metrics. split; reflexivity.
  - destruct (fetch_blockchain_fallback net_fallback half noon no_float after_hylo_timeouts)
      as [[metrics | e] w'] eqn:E; [| discriminate E].
    exists metrics, w'. split; [reflexivity |].
    pose proof (leverage_and_base_formulas net_fallback half noon no_float Fallback
                  after_hylo_timeouts metrics w' E) as _.
    inversion E; subst metrics. split; reflexivity.
Defined.

(** Witness of C6 as amended, on both paths: the ratio 1.2 of the Hylo API is passed on, and
    the blockchain path has a null ratio and the note. *)
Lemma collateral_ratio_and_note_witness :
  (exists metrics w',
     hylo_primary net_primary half noon world0 = (Ok metrics, w')
     /\ py_getitem metrics "CollateralRatio" = Ok (VFloat (6 # 5))
     /\ py_getitem metrics "note" = KeyError "note")
  /\ (exists metrics w',
        fetch_blockchain_fallback net_fallback half noon no_float after_hylo_timeouts
        = (Ok metrics, w')
        /\ py_getitem metrics "CollateralRatio" = Ok VNone
        /\ py_getitem metrics "note"
           = Ok (VStr "CollateralRatio unavailable - using blockchain approximation")).
Proof.
  split.
  - destruct (hylo_primary net_primary half noon world0) as [[metrics | e] w'] eqn:E;
      [| discriminate E].
    exists metrics, w'. split; [reflexivity |].
    destruct (collateral_ratio_and_note net_primary half noon no_float Primary
                world0 metrics w' E) as [_ Hnote].
    split; [| exact Hnote]. inversion E; subst metrics. reflexivity.
  - destruct (fetch_blockchain_fallback net_fallback half noon no_float after_hylo_timeouts)
      as [[metrics | e] w'] eqn:E; [| discriminate E].
    exists metrics, w'. split; [reflexivity |].
    exact (collateral_ratio_and_note net_fallback half noon no_float Fallback
             after_hylo_timeouts metrics w' E).
Defined.

(** Witness of C8, at [net_fallback]: the supply 1000000 of the first endpoint and
    the price 1.5 give a collateral TVL of 19500000.0 over the constant
    stable supply. *)
Lemma fallback_stable_supply_is_constant_witness :
  exists metrics w',
    do_GET net_fallback half noon no_float world0 = (ok_response metrics, w')
    /\ py_getitem metrics "HYusd_supply" = Ok (VInt 18000000)
    /\ py_getitem metrics "Collateral_TVL" = Ok (VFloat 19500000)
    /\ py_getitem metrics "CollateralRatio" = Ok VNone
    /\ py_getitem metrics "source" = Ok (VStr "blockchain-fallback").
Proof.
  destruct (fetch_blockchain_fallback net_fallback half noon no_float after_hylo_timeouts)
    as [[metrics | e] w'] eqn:E; [| discriminate E].
  exists metrics, w'.
  destruct (fallback_stable_supply_is_constant net_fallback half noon no_float
              after_hylo_timeouts metrics w' E) as (Hs & _ & Hex).
  split.
  - apply (do_GET_fallback_Ok net_fallback half noon no_float world0
             (PyExc "URLError" "<urlopen error timed out>") after_hylo_timeouts);
      [reflexivity | exact E].
  - split; [exact Hs |]. split.
    + apply Hex; inversion E; subst metrics; reflexivity.
    + inversion E; subst metrics. split; reflexivity.
Defined.

(** Witness of C7, at [net_429_then_ok]: with a jitter of one half the call sleeps
    1.5 seconds between its two requests. *)
Lemma rate_limit_then_success_witness :
  exists w',
    fetch_with_retry net_429_then_ok half (price_url SOL_MINT) None 3 world0
    = (Ok (price_doc SOL_MINT (VInt 150)), w')
    /\ calls w' = 2%nat
    /\ trace w' = [ Request (retry_request (price_url SOL_MINT) None);
                    Sleep (3 # 2);
                    Request (retry_request (price_url SOL_MINT) None) ].
Proof.
  destruct (rate_limit_then_success net_429_then_ok half (price_url SOL_MINT) None 3
              world0 "HTTP Error 429: Too Many Requests" (price_doc SOL_MINT (VInt 150)))
    as (w' & F & C & T & _).
  - lia.
  - reflexivity.
  - reflexivity.
  - discriminate.
  - reflexivity.
  - exists w'. split; [exact F |]. split; [exact C | exact T].
Defined.

(** Witness of C3 as amended, at [net_down]: three timeouts, a second of sleep after the first
    and after the second, and the third timeout reaches the caller. *)
Lemma retry_policy_witness :
  fetch_with_retry net_down half HYLO_API (Some hylo_headers) 3 world0
  = (Raise (PyExc "URLError" "<urlopen error timed out>"), after_hylo_timeouts)
  /\ calls after_hylo_timeouts = 3%nat
  /\ net_down 2%nat hylo_request = Fails (PyExc "URLError" "<urlopen error timed out>").
Proof.
  assert (F : fetch_with_retry net_down half HYLO_API (Some hylo_headers) 3 world0
              = (Raise (PyExc "URLError" "<urlopen error timed out>"), after_hylo_timeouts))
    by reflexivity.
  split; [exact F |].
  exact (proj2 (proj2 (proj2 (retry_policy net_down half HYLO_API (Some hylo_headers) 3)))
           world0 _ _ _ F).
Defined.

(** Witness of C10 as amended, at [net_429_then_ok]: the document returned is the answer to the
    second, last request. *)
Lemma fetch_with_retry_result_witness :
  exists w',
    fetch_with_retry net_429_then_ok half (price_url SOL_MINT) None 3 world0
    = (Ok (price_doc SOL_MINT (VInt 150)), w')
    /\ (calls world0 < calls w')%nat
    /\ net_429_then_ok (pred (calls w')) (retry_request (price_url SOL_MINT) None)
       = Responds (price_doc SOL_MINT (VInt 150)).
Proof.
  destruct (fetch_with_retry net_429_then_ok half (price_url SOL_MINT) None 3 world0)
    as [r w'] eqn:F.
  destruct (fetch_with_retry_result net_429_then_ok half (price_url SOL_MINT) None 3
              world0 r w') as (_ & Hc & Hn).
  - lia.
  - exact F.
  - assert (R : r = Ok (price_doc SOL_MINT (VInt 150))) by (inversion F; reflexivity).
    subst r. exists w'. split; [reflexivity |]. split; [exact Hc | exact Hn].
Defined.

(** ** Where the first descriptions fail *)

(** Counterexample to C3 as first stated: an answer 503 from the Hylo API is raised
    at once, after one request and no sleep. *)
Lemma http_error_is_not_retried :
  fetch_with_retry (scripted [unavailable]) half HYLO_API (Some hylo_headers) 3 world0
  = (Raise (HTTPError 503 "HTTP Error 503: Service Unavailable"), after_hylo_refused)
  /\ ~ retried_unless_429 (scripted [unavailable]) half.
Proof.
  split; [reflexivity |].
  intros H.
  specialize (H HYLO_API (Some hylo_headers) 0 [1; 2] world0
                (HTTPError 503 "HTTP Error 503: Service Unavailable") eq_refl).
  assert (C : retry_loop (scripted [unavailable]) half HYLO_API (Some hylo_headers) 3
                [0; 1; 2] world0
              = (Raise (HTTPError 503 "HTTP Error 503: Service Unavailable"),
                 after_hylo_refused)) by reflexivity.
  rewrite C in H.
  assert (D : retry_loop (scripted [unavailable]) half HYLO_API (Some hylo_headers) 3
                [1; 2] (slept 1 (requested (retry_request HYLO_API (Some hylo_headers)) world0))
              = (Raise (PyExc "URLError" "<urlopen error timed out>"), after_hylo_timeouts))
    by reflexivity.
  rewrite D in H.
  assert (G : forall msg : string,
            HTTPError 503 "HTTP Error 503: Service Unavailable" <> HTTPError 429 msg)
    by (intros msg; discriminate).
  specialize (H G ltac:(lia)). discriminate H.
Qed.

(** Counterexample to C6 as first stated: when the Hylo API sends a null collateral
    ratio the Hylo path succeeds and passes the null on. *)
Lemma null_ratio_on_primary :
  (exists metrics w',
     do_GET net_null_ratio half noon no_float world0 = (ok_response metrics, w')
     /\ py_getitem metrics "source" = Ok (VStr "hylo-api")
     /\ py_getitem metrics "CollateralRatio" = Ok VNone)
  /\ ~ ratio_non_null_on_primary net_null_ratio half noon.
Proof.
  split.
  - eexists. eexists. split; [reflexivity |]. split; reflexivity.
  - intros H.
    destruct (hylo_primary net_null_ratio half noon world0) as [[metrics | e] w'] eqn:E;
      [| discriminate E].
    destruct (H world0 metrics w' E) as (ratio & Hr & Hn).
    inversion E; subst metrics. inversion Hr; subst ratio. apply Hn. reflexivity.
Qed.

(** Counterexample to C10 as first stated: with [max_retries] zero the loop runs off
    its end at once and the call returns [None] without a request, and
    with the default three a body of JSON [null] is returned as [None]. *)
Lemma fetch_with_retry_returns_None :
  fetch_with_retry net_down half HYLO_API None 0 world0 = (Ok VNone, world0)
  /\ retry_loop net_down half HYLO_API None 0 (range 0) world0 = (Ok None, world0)
  /\ fetch_with_retry (scripted [Responds VNone]) half HYLO_API None 3 world0
     = (Ok VNone, requested (retry_request HYLO_API None) world0)
  /\ ~ never_returns_None net_down half
  /\ ~ loop_end_unreachable net_down half.
Proof.
  split; [reflexivity |]. split; [reflexivity |]. split; [reflexivity |]. split.
  - intros H. apply (H HYLO_API None 0 world0 world0). reflexivity.
  - intros H. apply (H HYLO_API None 0 world0 world0). reflexivity.
Qed.

(** ** Further scenarios *)


(** The Hylo API answers with an [exchangeStats] that has only the
    stable supply. *)
Definition net_partial_stats : nat -> request -> outcome :=
  scripted [ Responds (VDict [ ("exchangeStats",
                                VDict [ ("stablecoinSupply", VInt 18000000) ]) ]) ].

(** The costliest run: the Hylo API answers on its third attempt and the
    SOL price times out three times; then the first endpoint times out,
    the second reports the supply, and each price is answered on the
    third attempt. *)
Definition net_costly : nat -> request -> outcome :=
  scripted [ timed_out; timed_out;
             Responds (stats_doc (VInt 18000000) (VFloat (3 # 2)) (VInt 1000000) (VFloat (6 # 5)));
             timed_out; timed_out; timed_out;
             timed_out; Responds (supply_doc (VInt 1000000));
             timed_out; timed_out; Responds (price_doc SOL_MINT (VInt 150));
             timed_out; timed_out; Responds (price_doc XSOL_MINT (VFloat (3 # 2))) ].

Lemma half_in_unit n : (0 <= half n)%Q.
Proof. discriminate. Qed.


(** Witness of X3, with [max_retries] at -1. *)
Lemma fetch_with_retry_without_attempts_witness :
  fetch_with_retry net_primary half HYLO_API (Some hylo_headers) (-1) world0
  = (Ok VNone, world0).
Proof.
  apply fetch_with_retry_without_attempts. lia.
Defined.

(** Witness of X4, at [net_down]: three requests with a sleep of one
    second between them. *)
Lemma fetch_with_retry_waits_witness :
  exists waits,
    trace after_hylo_timeouts = (trace world0 ++ retry_trace hylo_request waits)%list
    /\ (List.length waits < Z.to_nat 3)%nat
    /\ calls after_hylo_timeouts = (calls world0 + S (List.length waits))%nat
    /\ Forall (fun q => (1 <= q)%Q) waits.
Proof.
  apply (fetch_with_retry_waits net_down half HYLO_API (Some hylo_headers) 3 world0
           (Raise (PyExc "URLError" "<urlopen error timed out>"))).
  - lia.
  - exact half_in_unit.
  - reflexivity.
Defined.


(** Witness of X6, at [net_no_price]: the price service answers with an
    empty dict and the SOL price is 0. *)
Lemma missing_price_is_zero_witness :
  fetch_price net_no_price half SOL (requested first_rpc after_hylo_refused)
  = (Ok (VInt 0),
     requested (retry_request (price_url SOL_MINT) None)
       (requested first_rpc after_hylo_refused)).
Proof.
  apply (missing_price_is_zero net_no_price half SOL
           (requested first_rpc after_hylo_refused) []).
  - reflexivity.
  - left. reflexivity.
Defined.

(** Witness of X7, at [net_partial_stats]: the first field that is
    missing is named by the [KeyError]. *)
Lemma missing_field_aborts_primary_witness :
  exists k,
    (k = "exchangeStats" \/ In k required_fields)
    /\ hylo_primary net_partial_stats half noon world0 = (KeyError k, after_hylo_refused)
    /\ get_metrics net_partial_stats half noon no_float world0
       = fetch_blockchain_fallback net_partial_stats half noon no_float after_hylo_refused.
Proof.
  apply (missing_field_aborts_primary net_partial_stats half noon no_float world0
           (VDict [ ("exchangeStats", VDict [ ("stablecoinSupply", VInt 18000000) ]) ])).
  - reflexivity.
  - right. exists [ ("stablecoinSupply", VInt 18000000) ], "levercoinNav".
    split; [reflexivity |]. split; [right; left; reflexivity | reflexivity].
Defined.

(** Witness of X8, at [net_primary]: the document has no
    [stabilityMode] and the record holds the empty dict. *)
Lemma stability_mode_default_witness :
  exists metrics w',
    hylo_primary net_primary half noon world0 = (Ok metrics, w')
    /\ py_getitem metrics "StabilityMode" = Ok (VDict []).
Proof.
  destruct (hylo_primary net_primary half noon world0) as [[metrics | e] w'] eqn:E;
    [| discriminate E].
  exists metrics, w'. split; [reflexivity |].
  destruct (stability_mode_default net_primary half noon world0 metrics w' E)
    as (doc & w1 & d & F & S & G).
  assert (F' : fetch_hylo_api net_primary half world0
               = (Ok (stats_doc (VInt 18000000) (VFloat (3 # 2)) (VInt 1000000)
                        (VFloat (6 # 5))),
                  after_hylo_refused)) by reflexivity.
  rewrite F' in F. inversion F; subst doc w1.
  simpl in S. inversion S; subst d. exact G.
Defined.

(** Witness of X9, on both paths. *)
Lemma record_figures_are_numbers_witness :
  (exists metrics w',
     hylo_primary net_primary half noon world0 = (Ok metrics, w')
     /\ py_getitem metrics "Effective_Leverage" = Ok (VFloat 13)
     /\ exists q, py_getitem metrics "Collateral_TVL_SOL" = Ok (VFloat q))
  /\ (exists metrics w',
        fetch_blockchain_fallback net_fallback half noon no_float after_hylo_timeouts
        = (Ok metrics, w')
        /\ py_getitem metrics "xSOL_supply" = Ok (VFloat 1000000)
        /\ exists q, py_getitem metrics "Collateral_TVL_SOL" = Ok (VFloat q)).
Proof.
  split.
  - destruct (hylo_primary net_primary half noon world0) as [[metrics | e] w'] eqn:E;
      [| discriminate E].
    exists metrics, w'. split; [reflexivity |].
    destruct (record_figures_are_numbers net_primary half noon no_float Primary
                world0 metrics w' E)
      as (stable & price & supply & sol & tvl & s & q1 & q2 & _ & _ & _ & _ & _ & H1 & _).
    split; [inversion E; subst metrics; reflexivity | exists q1; exact H1].
  - destruct (fetch_blockchain_fallback net_fallback half noon no_float after_hylo_timeouts)
      as [[metrics | e] w'] eqn:E; [| discriminate E].
    exists metrics, w'. split; [reflexivity |].
    destruct (record_figures_are_numbers net_fallback half noon no_float Fallback
                after_hylo_timeouts metrics w' E)
      as (stable & price & supply & sol & tvl & s & q1 & q2 & _ & _ & _ & _ & _ & H1 & _).
    split; [inversion E; subst metrics; reflexivity | exists q1; exact H1].
Defined.

(** Witness of X10, on both paths. *)
Lemma record_schema_witness :
  (exists metrics w' d,
     hylo_primary net_primary half noon world0 = (Ok metrics, w')
     /\ metrics = VDict d
     /\ map fst d = common_keys
     /\ assoc "lastFetched" d = Some (VStr "2024-01-01T12:00:00Z"))
  /\ (exists metrics w' d,
        fetch_blockchain_fallback net_fallback half noon no_float after_hylo_timeouts
        = (Ok metrics, w')
        /\ metrics = VDict d
        /\ map fst d = (common_keys ++ ["note"])%list
        /\ assoc "lastFetched" d = Some (VStr "2024-01-01T12:00:00Z")).
Proof.
  split.
  - destruct (hylo_primary net_primary half noon world0) as [[metrics | e] w'] eqn:E;
      [| discriminate E].
    destruct (record_schema net_primary half noon no_float Primary world0 metrics w' E)
      as (d & Hd & Hk & _ & Ht & _).
    exists metrics, w', d. split; [reflexivity |]. split; [exact Hd |].
    split; [rewrite Hk; reflexivity | exact Ht].
  - destruct (fetch_blockchain_fallback net_fallback half noon no_float after_hylo_timeouts)
      as [[metrics | e] w'] eqn:E; [| discriminate E].
    destruct (record_schema net_fallback half noon no_float Fallback
                after_hylo_timeouts metrics w' E)
      as (d & Hd & Hk & _ & Ht & _).
    exists metrics, w', d. split; [reflexivity |]. split; [exact Hd |].
    split; [exact Hk | exact Ht].
Defined.

(** Witness of X11, at [net_costly]. *)
Lemma do_GET_requests_witness :
  extends expected world0 (snd (do_GET net_costly half noon no_float world0)).
Proof.
  apply (do_GET_requests net_costly half noon no_float world0
           (fst (do_GET net_costly half noon no_float world0))).
  apply surjective_pairing.
Defined.



(** Witness of X14, at [net_costly]: the bound of fourteen requests is
    reached. *)
Lemma do_GET_request_budget_witness :
  calls (snd (do_GET net_costly half noon no_float world0)) = 14%nat
  /\ (calls (snd (do_GET net_costly half noon no_float world0)) <= calls world0 + 14)%nat.
Proof.
  split; [reflexivity |].
  apply (do_GET_request_budget net_costly half noon no_float world0
           (fst (do_GET net_costly half noon no_float world0))).
  apply surjective_pairing.
Defined.

